(** * nb-runtype: runtime type validation for notebook functions

  A shallow embedding of [nb_runtype/runtype.py]:
  - the AST pass [RuntypeASTDecorator] that puts the [_runtype] decorator on
    every function definition,
  - the decorator closure [_runtype] built by [enable_runtype], with its
    synchronous and asynchronous wrappers and the translation of engine
    failures into [RuntypeError],
  - the session control functions [enable_runtype], [disable_runtype],
    [is_runtype_enabled], [get_runtype_config] and the marker [no_runtype].

  The IPython shell and the pydantic engine are collaborators outside the
  package: the shell is a record holding the attributes the package touches,
  the engine is a record of three operations taken as a parameter. *)

From stdpp Require Import base option list strings gmap pretty.

Open Scope string_scope.

#[local] Set Warnings "-register-all".

(** ** Python values *)

(** The fragment of Python data the package handles: flags, arguments,
  return values and the values stored in dictionaries. [VObject] is an
  object of any other class, known by the name of its class only. *)
Inductive PyVal : Type :=
| VNone
| VBool (b : bool)
| VInt (z : Z)
| VStr (s : string)
| VTuple (items : list PyVal)
| VDict (entries : list (string * PyVal))
| VObject (cls : string).

(** [isinstance(v, bool)] *)
Definition is_bool (v : PyVal) : bool :=
  match v with VBool _ => true | _ => false end.

(** Truth value testing, as [if v:] does it. *)
Definition truthy (v : PyVal) : bool :=
  match v with
  | VNone => false
  | VBool b => b
  | VInt z => negb (Z.eqb z 0)
  | VStr s => negb (String.eqb s "")
  | VTuple items => match items with [] => false | _ => true end
  | VDict entries => match entries with [] => false | _ => true end
  | VObject _ => true
  end.

(** A [dict] with string keys, in insertion order. *)
Definition Dict : Type := list (string * PyVal).

Fixpoint dict_get (d : Dict) (k : string) : option PyVal :=
  match d with
  | [] => None
  | (k', v) :: rest => if String.eqb k' k then Some v else dict_get rest k
  end.

(** [d[k] = v]: an existing key keeps its place, a new one goes last. *)
Fixpoint dict_set (d : Dict) (k : string) (v : PyVal) : Dict :=
  match d with
  | [] => [(k, v)]
  | (k', v') :: rest =>
      if String.eqb k' k then (k', v) :: rest else (k', v') :: dict_set rest k v
  end.

(** ** Module constants *)

Definition _RUNTYPE_WRAPPER : string := "_runtype".
Definition _RUNTYPE_ENABLED : string := "_runtype_enabled".
Definition _RUNTYPE_CONFIG : string := "_runtype_config".
Definition _RUNTYPE_EXCLUSION : string := "_no_runtype".

(** ** The transform pass: [RuntypeASTDecorator] *)

Module Ast.

Inductive expr_context : Type := Load | Store | Del.

(** Decorator expressions. Only [Name] nodes carry an [id] field. *)
Inductive expr : Type :=
| Name (id : string) (ctx : expr_context)
| Attribute (value : expr) (attr : string) (ctx : expr_context)
| Call (func : expr) (args : list expr)
| Constant (value : PyVal).

(** [getattr(deco, "id", None)] *)
Definition getattr_id (deco : expr) : option string :=
  match deco with
  | Name id _ => Some id
  | _ => None
  end.

(** [getattr(deco, "id", None) == _RUNTYPE_WRAPPER] *)
Definition is_marker (deco : expr) : bool :=
  match getattr_id deco with
  | Some id => String.eqb id _RUNTYPE_WRAPPER
  | None => false
  end.

(** The fields of a [FunctionDef] / [AsyncFunctionDef] node the pass reads
    or writes; [lineno] stands for the fields it leaves alone. *)
Record def_fields : Type := mk_def {
  name : string;
  decorator_list : list expr;
  lineno : nat
}.

Inductive def_node : Type :=
| FunctionDef (d : def_fields)
| AsyncFunctionDef (d : def_fields).

Definition fields (n : def_node) : def_fields :=
  match n with FunctionDef d | AsyncFunctionDef d => d end.

(** The [for deco in node.decorator_list: if ...: break] loop: [true] when
    the loop leaves through [break], [false] when it runs to its end and
    the [else] branch is taken. *)
Fixpoint loop_breaks (decos : list expr) : bool :=
  match decos with
  | [] => false
  | deco :: rest => if is_marker deco then true else loop_breaks rest
  end.

(** [node.decorator_list.insert(0, ast.Name(id=_RUNTYPE_WRAPPER, ctx=ast.Load()))] *)
Definition insert_marker (d : def_fields) : def_fields :=
  mk_def (name d) (Name _RUNTYPE_WRAPPER Load :: decorator_list d) (lineno d).

Definition visit_FunctionDef (d : def_fields) : def_fields :=
  if loop_breaks (decorator_list d) then d else insert_marker d.

Definition visit_AsyncFunctionDef (d : def_fields) : def_fields :=
  if loop_breaks (decorator_list d) then d else insert_marker d.

(** [NodeTransformer.visit] on a definition node: dispatch on the class. *)
Definition visit (n : def_node) : def_node :=
  match n with
  | FunctionDef d => FunctionDef (visit_FunctionDef d)
  | AsyncFunctionDef d => AsyncFunctionDef (visit_AsyncFunctionDef d)
  end.

(** Number of entries of a decorator list that are the marker. *)
Definition count_marker (decos : list expr) : nat :=
  length (List.filter is_marker decos).

(** [@_runtype @_runtype def f(): ...], as the parser yields it *)
Definition twice_decorated : def_node :=
  FunctionDef (mk_def "f" [Name "_runtype" Load; Name "_runtype" Load] 3).

(** [@staticmethod def g(): ...] *)
Definition plain_def : def_node :=
  AsyncFunctionDef (mk_def "g" [Name "staticmethod" Load] 1).

End Ast.

(** ** Exceptions and outcomes *)

Inductive LocItem : Type :=
| LocStr (s : string)
| LocInt (i : Z).

(** One entry of [ValidationError.errors()]. The package reads the keys
    ["loc"], ["msg"] and ["input"] with [dict.get]; [None] is an absent key. *)
Record ErrorDetails : Type := mk_error {
  err_loc : option (list LocItem);
  err_msg : option string;
  err_input : option PyVal
}.

Inductive Exn : Type :=
| ValidationError (errors : list ErrorDetails) (text : string)
| PydanticSchemaGenerationError (message : string)
| RuntypeError (errors : list ErrorDetails) (original_exception : option Exn)
    (message : string) (cause : option Exn)
| TypeError (message : string)
| RuntimeError (message : string) (cause : option Exn)
| OtherException (cls : string) (message : string)
| NonException (cls : string) (message : string).

(** [isinstance(e, Exception)]: everything except the [BaseException]-only
    classes such as [KeyboardInterrupt]. *)
Definition is_Exception (e : Exn) : bool :=
  match e with NonException _ _ => false | _ => true end.

(** [str(e)] *)
Definition exn_str (e : Exn) : string :=
  match e with
  | ValidationError _ text => text
  | PydanticSchemaGenerationError m => m
  | RuntypeError _ _ m _ => m
  | TypeError m => m
  | RuntimeError m _ => m
  | OtherException _ m => m
  | NonException _ m => m
  end.

(** The two engine failures the wrappers translate. *)
Definition is_engine_failure (e : Exn) : bool :=
  match e with
  | ValidationError _ _ | PydanticSchemaGenerationError _ => true
  | _ => false
  end.

(** A statement or call either completes with a value or raises. *)
Inductive Outcome (A : Type) : Type :=
| Return (a : A)
| Raise (e : Exn).

Arguments Return {A} a.
Arguments Raise {A} e.

#[global] Instance Outcome_ret : MRet Outcome := fun A a => Return a.

#[global] Instance Outcome_bind : MBind Outcome := fun A B k o =>
  match o with
  | Return a => k a
  | Raise e => Raise e
  end.

#[global] Instance Outcome_fmap : FMap Outcome := fun A B f o =>
  match o with
  | Return a => Return (f a)
  | Raise e => Raise e
  end.

(** What a call hands back: a plain value, or a coroutine still to be awaited. *)
Inductive Obj : Type :=
| OVal (v : PyVal)
| OCoro (run : unit -> Outcome PyVal).

(** [await aw] *)
Definition await (aw : Obj) : Outcome PyVal :=
  match aw with
  | OCoro run => run tt
  | OVal _ => Raise (TypeError "object can't be used in 'await' expression")
  end.

(** ** Functions *)

Inductive Ann : Type := AnnInt | AnnStr | AnnBool | AnnNone | AnnAny.

Record Signature : Type := mk_sig {
  params : list (string * Ann);
  returns : Ann
}.

(** A user function: [fn_dict] is its [__dict__], [fn_body] what running its
    body on the bound arguments does ([async def] bodies run when awaited). *)
Record Func : Type := mk_func {
  fn_name : string;
  fn_sig : Signature;
  fn_is_coroutine : bool;
  fn_dict : Dict;
  fn_body : list PyVal -> Dict -> Outcome PyVal
}.

(** An error entry refers to a parameter by its name or, for a positional
    argument, by its position in the signature. *)
Definition refers_to_param (sg : Signature) (pname : string) (err : ErrorDetails) : bool :=
  match err_loc err with
  | Some (LocStr s :: _) => String.eqb s pname
  | Some (LocInt i :: _) =>
      match params sg !! Z.to_nat i with
      | Some (s, _) => Z.leb 0 i && String.eqb s pname
      | None => false
      end
  | _ => false
  end.

(** Calling [func] on positional and keyword arguments. *)
Definition call_func (func : Func) (args : list PyVal) (kwargs : Dict) : Outcome Obj :=
  if fn_is_coroutine func
  then Return (OCoro (fun _ => fn_body func args kwargs))
  else v ← fn_body func args kwargs; Return (OVal v).

(** [getattr(func, name, default)] *)
Definition getattr (func : Func) (name : string) (default : PyVal) : PyVal :=
  match dict_get (fn_dict func) name with
  | Some v => v
  | None => default
  end.

(** [setattr(func, name, v)] *)
Definition setattr (func : Func) (name : string) (v : PyVal) : Func :=
  mk_func (fn_name func) (fn_sig func) (fn_is_coroutine func)
          (dict_set (fn_dict func) name v) (fn_body func).

Definition no_runtype (func : Func) : Func :=
  setattr func _RUNTYPE_EXCLUSION (VBool true).

(** ** The validation engine

    [pydantic.validate_call] is outside the package. Its contract: building
    the validator for a signature may fail with
    [PydanticSchemaGenerationError]; a call validates the arguments, calls
    the function on the validated arguments, validates what the function
    handed back when the configuration dictionary says [validate_return],
    and validates the result once more when the keyword [validate_return]
    says so; every validation fails with [ValidationError]. *)
Record Engine : Type := mk_engine {
  generate_schema : Dict -> Signature -> option string;
  validate_arguments :
    Dict -> Signature -> list PyVal -> Dict ->
    (list ErrorDetails * string) + (list PyVal * Dict);
  validate_return_value :
    Dict -> Signature -> PyVal -> (list ErrorDetails * string) + PyVal
}.

(** [config_wrapper.validate_return]: the key of the configuration
    dictionary, [False] when the key is absent. *)
Definition config_validate_return (config : Dict) : bool :=
  truthy (default (VBool false) (dict_get config "validate_return")).

(** A value against the return annotation. *)
Definition check_return (E : Engine) (config : Dict) (sg : Signature) (v : PyVal)
    : Outcome PyVal :=
  match validate_return_value E config sg v with
  | inl (errs, text) => Raise (ValidationError errs text)
  | inr v' => Return v'
  end.

(** What calling a coroutine function hands back before anything is
    awaited. *)
Definition coroutine_object : PyVal := VObject "coroutine".

(** The call of a validated function, run to its end.

    For a plain function the call schema validates the arguments, runs the
    body and, when the configuration says [validate_return], validates the
    body's result; the keyword [validate_return] then validates that result
    again.

    For a coroutine function the call inside the call schema only creates
    the coroutine: when the configuration says [validate_return] it is this
    un-awaited coroutine object that is held against the return annotation,
    before the body has run; a coroutine object the engine accepts is handed
    on as it is. Only then is the coroutine awaited, which runs the body, and
    the keyword [validate_return] validates the awaited result. *)
Definition validated_run (E : Engine) (config : Dict) (validate_return : PyVal)
    (func : Func) (args : list PyVal) (kwargs : Dict) : Outcome PyVal :=
  match validate_arguments E config (fn_sig func) args kwargs with
  | inl (errs, text) => Raise (ValidationError errs text)
  | inr (args', kwargs') =>
      if fn_is_coroutine func
      then
        _ ← (if config_validate_return config
             then check_return E config (fn_sig func) coroutine_object
             else Return coroutine_object);
        v ← fn_body func args' kwargs';
        if truthy validate_return
        then check_return E config (fn_sig func) v
        else Return v
      else
        v ← fn_body func args' kwargs';
        v1 ← (if config_validate_return config
              then check_return E config (fn_sig func) v
              else Return v);
        if truthy validate_return
        then check_return E config (fn_sig func) v1
        else Return v1
  end.

(** [validate_call(config=config, validate_return=validate_return)(func)]:
    the validated function, or the schema failure. A validated coroutine
    function hands back a coroutine that does the whole work when awaited. *)
Definition validate_call (E : Engine) (config : Dict) (validate_return : PyVal)
    (func : Func) : Outcome (list PyVal -> Dict -> Outcome Obj) :=
  match generate_schema E config (fn_sig func) with
  | Some m => Raise (PydanticSchemaGenerationError m)
  | None =>
      Return (fun args kwargs =>
        if fn_is_coroutine func
        then Return (OCoro (fun _ => validated_run E config validate_return func args kwargs))
        else v ← validated_run E config validate_return func args kwargs;
             Return (OVal v))
  end.

(** ** [RuntypeError] and the decorator [_runtype] *)

Section Decorator.

(** The builtin [repr], used by the [!r] conversion. *)
Variable repr : PyVal -> string.

Variable E : Engine.

(** [str(x)] for an item of a location path *)
Definition loc_str (x : LocItem) : string :=
  match x with
  | LocStr s => s
  | LocInt i => pretty i
  end.

Definition newline : string := String (Ascii.ascii_of_nat 10) EmptyString.

(** The line [_format_errors] appends for one error. *)
Definition format_error (err : ErrorDetails) : string :=
  let loc := String.concat " -> " (map loc_str (default [] (err_loc err))) in
  let msg := default "Invalid value" (err_msg err) in
  let value := default VNone (err_input err) in
  if negb (String.eqb loc "")
  then "  Parameter '" +:+ loc +:+ "': " +:+ msg +:+ ". Value: " +:+ repr value
  else "  " +:+ msg +:+ ". Value: " +:+ repr value.

Definition _format_errors (errors : list ErrorDetails) : string :=
  String.concat newline ("Runtime type validation failed:" :: map format_error errors).

(** [raise RuntypeError(errors, original_exception=e) from e] *)
Definition raise_RuntypeError {A : Type} (errors : list ErrorDetails) (e : Exn) : Outcome A :=
  Raise (RuntypeError errors (Some e) (_format_errors errors) (Some e)).

(** The descriptor of a schema failure: a dictionary with the one key ["msg"]. *)
Definition schema_failure : ErrorDetails :=
  mk_error None (Some "Failed to generate Pydantic schema") None.

(** What [_runtype] closes over. *)
Record Closure : Type := mk_closure {
  cl_config : Dict;
  cl_validate_return : PyVal
}.

Definition get_validated_func (cl : Closure) (func : Func)
    : Outcome (list PyVal -> Dict -> Outcome Obj) :=
  validate_call E (cl_config cl) (cl_validate_return cl) func.

(** The three [except] clauses shared by both wrappers. The last one
    re-raises the exception it caught; an exception that is no [Exception]
    is caught by none of them. *)
Definition except_clauses {A : Type} (body : Outcome A) : Outcome A :=
  match body with
  | Return a => Return a
  | Raise e =>
      match e with
      | ValidationError errs _ => raise_RuntypeError errs e
      | PydanticSchemaGenerationError _ => raise_RuntypeError [schema_failure] e
      | _ => if is_Exception e then Raise e else Raise e
      end
  end.

(** The body of the synchronous [wrapper]. *)
Definition wrapper (cl : Closure) (func : Func) (args : list PyVal) (kwargs : Dict)
    : Outcome Obj :=
  except_clauses (validated ← get_validated_func cl func; validated args kwargs).

(** The body of [async_wrapper], which runs when its coroutine is awaited. *)
Definition async_wrapper_body (cl : Closure) (func : Func) (args : list PyVal)
    (kwargs : Dict) : Outcome PyVal :=
  except_clauses (validated ← get_validated_func cl func;
                  aw ← validated args kwargs;
                  await aw).

(** Calling [async_wrapper] only creates the coroutine. *)
Definition async_wrapper (cl : Closure) (func : Func) (args : list PyVal) (kwargs : Dict)
    : Outcome Obj :=
  Return (OCoro (fun _ => async_wrapper_body cl func args kwargs)).

(** What [_runtype] returns: the function it was given, or one of the wrappers. *)
Inductive Callable : Type :=
| Same (func : Func)
| SyncWrapped (cl : Closure) (func : Func)
| AsyncWrapped (cl : Closure) (func : Func).

Definition _runtype (cl : Closure) (func : Func) : Callable :=
  if truthy (getattr func _RUNTYPE_EXCLUSION (VBool false))
  then Same func
  else if fn_is_coroutine func
       then AsyncWrapped cl func
       else SyncWrapped cl func.

Definition call (c : Callable) (args : list PyVal) (kwargs : Dict) : Outcome Obj :=
  match c with
  | Same func => call_func func args kwargs
  | SyncWrapped cl func => wrapper cl func args kwargs
  | AsyncWrapped cl func => async_wrapper cl func args kwargs
  end.

(** The asynchronous call path: [await c(args, kwargs)]. *)
Definition call_await (c : Callable) (args : list PyVal) (kwargs : Dict) : Outcome PyVal :=
  aw ← call c args kwargs; await aw.

(** A call followed to its end on either path: a plain value is the result,
    a coroutine is awaited. *)
Definition invoke (c : Callable) (args : list PyVal) (kwargs : Dict) : Outcome PyVal :=
  r ← call c args kwargs;
  match r with
  | OVal v => Return v
  | OCoro _ => await r
  end.

End Decorator.

(** ** The host session *)

Inductive Transformer : Type :=
| RuntypeASTDecorator
| HostTransformer (name : string).

(** [isinstance(t, RuntypeASTDecorator)] *)
Definition is_RuntypeASTDecorator (t : Transformer) : bool :=
  match t with RuntypeASTDecorator => true | HostTransformer _ => false end.

(** What a name of the user namespace is bound to. *)
Inductive NsObj : Type :=
| NsRuntype (cl : Closure)
| NsValue (v : PyVal).

(** The IPython shell, as far as the package touches it: the user namespace,
    the list of AST transformers (when the shell has that attribute) and the
    attributes stored with [setattr]. The shell is outside the package, so
    its two entry points that may refuse are given their way to fail:
    [push_fault] is what [ip.push] raises, [setattr_fault name] what storing
    the attribute [name] raises. *)
Record InteractiveShell : Type := mk_shell {
  user_ns : gmap string NsObj;
  ast_transformers : option (list Transformer);
  attrs : gmap string PyVal;
  push_fault : option Exn;
  setattr_fault : string -> option Exn
}.

Definition with_user_ns (ip : InteractiveShell) (ns : gmap string NsObj) : InteractiveShell :=
  mk_shell ns (ast_transformers ip) (attrs ip) (push_fault ip) (setattr_fault ip).

Definition with_ast_transformers (ip : InteractiveShell) (ts : list Transformer)
    : InteractiveShell :=
  mk_shell (user_ns ip) (Some ts) (attrs ip) (push_fault ip) (setattr_fault ip).

Definition with_attrs (ip : InteractiveShell) (a : gmap string PyVal) : InteractiveShell :=
  mk_shell (user_ns ip) (ast_transformers ip) a (push_fault ip) (setattr_fault ip).

(** [ip.push({name: obj})] *)
Definition push (ip : InteractiveShell) (name : string) (obj : NsObj)
    : Outcome InteractiveShell :=
  match push_fault ip with
  | Some e => Raise e
  | None => Return (with_user_ns ip (<[name := obj]> (user_ns ip)))
  end.

(** [ip.ast_transformers.append(t)] *)
Definition append_transformer (ip : InteractiveShell) (t : Transformer)
    : Outcome InteractiveShell :=
  match ast_transformers ip with
  | None =>
      Raise (OtherException "AttributeError"
               "'InteractiveShell' object has no attribute 'ast_transformers'")
  | Some ts => Return (with_ast_transformers ip (ts ++ [t])%list)
  end.

(** [hasattr(ip, name)] for the attributes the package stores *)
Definition shell_hasattr (ip : InteractiveShell) (name : string) : bool :=
  bool_decide (is_Some (attrs ip !! name)).

(** [setattr(ip, name, v)] *)
Definition shell_setattr (ip : InteractiveShell) (name : string) (v : PyVal)
    : Outcome InteractiveShell :=
  match setattr_fault ip name with
  | Some e => Raise e
  | None => Return (with_attrs ip (<[name := v]> (attrs ip)))
  end.

(** [delattr(ip, name)] *)
Definition shell_delattr (ip : InteractiveShell) (name : string) : InteractiveShell :=
  with_attrs ip (delete name (attrs ip)).

(** The process: what [get_ipython()] returns, and what was printed so far. *)
Record World : Type := mk_world {
  get_ipython : option InteractiveShell;
  stdout : list string
}.

Definition print (line : string) (w : World) : World :=
  mk_world (get_ipython w) (stdout w ++ [line])%list.

(** The shell object is shared: what a function did to it stays done. *)
Definition with_shell (w : World) (ip : InteractiveShell) : World :=
  mk_world (Some ip) (stdout w).

Definition _get_ipython_context (w : World) : Outcome InteractiveShell :=
  match get_ipython w with
  | None => Raise (RuntimeError "This should be run from an IPython environment." None)
  | Some ip => Return ip
  end.

Definition _is_runtype_enabled (ip : InteractiveShell) : bool :=
  shell_hasattr ip _RUNTYPE_ENABLED.

(** The shell lets every step of [enable_runtype] through. *)
Definition cooperative (ip : InteractiveShell) : Prop :=
  push_fault ip = None
  /\ is_Some (ast_transformers ip)
  /\ setattr_fault ip _RUNTYPE_ENABLED = None
  /\ setattr_fault ip _RUNTYPE_CONFIG = None.

(** ** Session control *)

Section Session.

Variable repr : PyVal -> string.

(** [str(d)] for a dictionary with string keys *)
Definition dict_str (d : Dict) : string :=
  "{" +:+ String.concat ", " (map (fun kv => repr (VStr kv.1) +:+ ": " +:+ repr kv.2) d) +:+ "}".

(** The second [try] block of [enable_runtype]: the statements run in order,
    and the first one that raises leaves the shell as the earlier ones made it. *)
Definition register_transformer (ip : InteractiveShell) (config : Dict)
    : Outcome unit * InteractiveShell :=
  match append_transformer ip RuntypeASTDecorator with
  | Raise e => (Raise e, ip)
  | Return ip1 =>
      match shell_setattr ip1 _RUNTYPE_ENABLED (VBool true) with
      | Raise e => (Raise e, ip1)
      | Return ip2 =>
          match shell_setattr ip2 _RUNTYPE_CONFIG (VDict config) with
          | Raise e => (Raise e, ip2)
          | Return ip3 => (Return tt, ip3)
          end
      end
  end.

(** The [except] clause of that block: remove [_runtype] from the namespace. *)
Definition cleanup_namespace (ip : InteractiveShell) : InteractiveShell :=
  if bool_decide (is_Some (user_ns ip !! _RUNTYPE_WRAPPER))
  then with_user_ns ip (delete _RUNTYPE_WRAPPER (user_ns ip))
  else ip.

Definition enable_runtype (strict validate_return validate_default
    arbitrary_types_allowed : PyVal) (w : World) : Outcome unit * World :=
  if negb (forallb is_bool
             [strict; validate_return; validate_default; arbitrary_types_allowed])
  then (Raise (TypeError "All parameters must be boolean values"), w)
  else
    match _get_ipython_context w with
    | Raise e => (Raise e, w)
    | Return ip =>
        if _is_runtype_enabled ip
        then (Return tt, print "runtype already enabled." w)
        else
          let config : Dict :=
            [("strict", strict);
             ("validate_return", validate_return);
             ("validate_default", validate_default);
             ("arbitrary_types_allowed", arbitrary_types_allowed)] in
          let _runtype := NsRuntype (mk_closure config validate_return) in
          match push ip _RUNTYPE_WRAPPER _runtype with
          | Raise e =>
              if is_Exception e
              then (Raise (RuntimeError
                             ("Failed to inject runtype decorator: " +:+ exn_str e)
                             (Some e)), w)
              else (Raise e, w)
          | Return ip1 =>
              match register_transformer ip1 config with
              | (Raise e, ip2) =>
                  if is_Exception e
                  then (Raise (RuntimeError
                                 ("Failed to register AST transformer: " +:+ exn_str e)
                                 (Some e)),
                        with_shell w (cleanup_namespace ip2))
                  else (Raise e, with_shell w ip2)
              | (Return _, ip2) =>
                  (Return tt,
                   print ("runtype enabled with config=" +:+ dict_str config)
                         (with_shell w ip2))
              end
          end
    end.

Definition disable_runtype (w : World) : Outcome unit * World :=
  match _get_ipython_context w with
  | Raise e => (Raise e, w)
  | Return ip =>
      if negb (_is_runtype_enabled ip)
      then (Return tt, print "runtype is not enabled." w)
      else
        let ip1 :=
          match ast_transformers ip with
          | Some ts =>
              with_ast_transformers ip
                (List.filter (fun t => negb (is_RuntypeASTDecorator t)) ts)
          | None => ip
          end in
        let ip2 :=
          if shell_hasattr ip1 _RUNTYPE_ENABLED
          then shell_delattr ip1 _RUNTYPE_ENABLED else ip1 in
        let ip3 :=
          if shell_hasattr ip2 _RUNTYPE_CONFIG
          then shell_delattr ip2 _RUNTYPE_CONFIG else ip2 in
        let ip4 :=
          if bool_decide (is_Some (user_ns ip3 !! _RUNTYPE_WRAPPER))
          then with_user_ns ip3 (delete _RUNTYPE_WRAPPER (user_ns ip3))
          else ip3 in
        (Return tt, print "runtype disabled." (with_shell w ip4))
  end.

End Session.

Definition is_runtype_enabled (w : World) : bool :=
  match _get_ipython_context w with
  | Return ip => _is_runtype_enabled ip
  | Raise _ => false
  end.

Definition get_runtype_config (w : World) : Outcome PyVal :=
  match _get_ipython_context w with
  | Raise e => Raise e
  | Return ip =>
      if negb (_is_runtype_enabled ip)
      then Raise (RuntimeError "runtype is not enabled." None)
      else Return (default (VDict []) (attrs ip !! _RUNTYPE_CONFIG))
  end.

(** ** Sample functions, a reference engine and sample sessions *)

Module Samples.

(** A [repr] for the values the samples print. *)
Definition repr (v : PyVal) : string :=
  match v with
  | VNone => "None"
  | VBool true => "True"
  | VBool false => "False"
  | VInt z => pretty z
  | VStr s => "'" +:+ s +:+ "'"
  | VTuple _ => "(...)"
  | VDict _ => "{...}"
  | VObject cls => "<" +:+ cls +:+ " object>"
  end.

(** [isinstance] against an annotation, in strict mode *)
Definition conforms (a : Ann) (v : PyVal) : bool :=
  match a, v with
  | AnnAny, _ => true
  | AnnInt, VInt _ => true
  | AnnStr, VStr _ => true
  | AnnBool, VBool _ => true
  | AnnNone, VNone => true
  | _, _ => false
  end.

Definition expected (a : Ann) : string :=
  match a with
  | AnnInt => "Input should be a valid integer"
  | AnnStr => "Input should be a valid string"
  | AnnBool => "Input should be a valid boolean"
  | AnnNone => "Input should be None"
  | AnnAny => "Input is valid"
  end.

(** Positional arguments are checked against the parameters in order and
    reported by position. *)
Fixpoint check_args (ps : list (string * Ann)) (args : list PyVal) (i : Z)
    : list ErrorDetails :=
  match ps, args with
  | (_, a) :: ps', v :: args' =>
      ((if conforms a v then []
        else [mk_error (Some [LocInt i]) (Some (expected a)) (Some v)])
         ++ check_args ps' args' (i + 1))%list
  | _, _ => []
  end.

(** Keyword arguments are checked against the parameter of their name and
    reported by name. *)
Fixpoint check_kwargs (ps : list (string * Ann)) (kwargs : Dict) : list ErrorDetails :=
  match kwargs with
  | [] => []
  | (k, v) :: rest =>
      (match List.find (fun p => String.eqb p.1 k) ps with
       | Some (_, a) =>
           if conforms a v then []
           else [mk_error (Some [LocStr k]) (Some (expected a)) (Some v)]
       | None => [mk_error (Some [LocStr k]) (Some "Unexpected keyword argument") (Some v)]
       end ++ check_kwargs ps rest)%list
  end.

(** A small engine that follows the contract of [validate_call]: every
    signature has a schema, values pass unchanged when they conform. *)
Definition strict_engine : Engine :=
  mk_engine
    (fun _ _ => None)
    (fun _ sg args kwargs =>
       match (check_args (params sg) args 0 ++ check_kwargs (params sg) kwargs)%list with
       | [] => inr (args, kwargs)
       | errs => inl (errs, pretty (length errs) +:+ " validation error(s)")
       end)
    (fun _ sg v =>
       if conforms (returns sg) v then inr v
       else inl ([mk_error (Some [LocStr "return"]) (Some (expected (returns sg)))
                           (Some v)],
                 "1 validation error(s)")).

(** An engine that has no schema for any signature. *)
Definition schemaless_engine : Engine :=
  mk_engine
    (fun _ _ => Some "Unable to generate pydantic-core schema")
    (fun _ _ args kwargs => inr (args, kwargs))
    (fun _ _ v => inr v).

Definition int_to_int : Signature := mk_sig [("x", AnnInt)] AnnInt.

(** The value bound to the parameter [x] of a one-parameter function. *)
Definition bound_x (args : list PyVal) (kwargs : Dict) : option PyVal :=
  match args with
  | [v] => Some v
  | [] => dict_get kwargs "x"
  | _ => None
  end.

(** [def f(x: int) -> int: return x + 1] *)
Definition f_body (args : list PyVal) (kwargs : Dict) : Outcome PyVal :=
  match bound_x args kwargs with
  | Some (VInt x) => Return (VInt (x + 1))
  | Some (VBool b) => Return (VInt (Z.b2z b + 1))
  | Some (VStr _) => Raise (TypeError "can only concatenate str (not 'int') to str")
  | Some _ => Raise (TypeError "unsupported operand type(s) for +")
  | None => Raise (TypeError "f() missing 1 required positional argument: 'x'")
  end.

Definition f : Func := mk_func "f" int_to_int false [] f_body.

(** [async def g(x: int) -> int: return x + 1] *)
Definition g : Func := mk_func "g" int_to_int true [] f_body.

(** [def inv(x: int) -> int: return 10 // x] *)
Definition inv_body (args : list PyVal) (kwargs : Dict) : Outcome PyVal :=
  match bound_x args kwargs with
  | Some (VInt 0) =>
      Raise (OtherException "ZeroDivisionError" "integer division or modulo by zero")
  | Some (VInt x) => Return (VInt (10 / x))
  | Some _ => Raise (TypeError "unsupported operand type(s) for //")
  | None => Raise (TypeError "inv() missing 1 required positional argument: 'x'")
  end.

Definition inv : Func := mk_func "inv" int_to_int false [] inv_body.

(** [async def ainv(x: int) -> int: return 10 // x] *)
Definition ainv : Func := mk_func "ainv" int_to_int true [] inv_body.

(** [def load(x: int) -> int] whose body builds a pydantic model of its own
    and fails there. *)
Definition load_body (args : list PyVal) (kwargs : Dict) : Outcome PyVal :=
  Raise (ValidationError
           [mk_error (Some [LocStr "port"]) (Some "Input should be a valid integer")
                     (Some (VStr "http"))]
           "1 validation error for Settings").

Definition load : Func := mk_func "load" int_to_int false [] load_body.

Definition all_true : Dict :=
  [("strict", VBool true); ("validate_return", VBool true);
   ("validate_default", VBool true); ("arbitrary_types_allowed", VBool true)].

(** The closure that [enable_runtype()] builds from its defaults. *)
Definition default_closure : Closure := mk_closure all_true (VBool true).

(** The closure that [enable_runtype(validate_return=False)] builds. *)
Definition no_return_closure : Closure :=
  mk_closure
    [("strict", VBool true); ("validate_return", VBool false);
     ("validate_default", VBool true); ("arbitrary_types_allowed", VBool true)]
    (VBool false).

(** A shell right after start-up, with one transformer of its own. *)
Definition fresh_shell : InteractiveShell :=
  mk_shell ∅ (Some [HostTransformer "autoawait"]) ∅ None (fun _ => None).

Definition fresh_world : World := mk_world (Some fresh_shell) [].

(** A process outside IPython. *)
Definition no_shell_world : World := mk_world None [].

(** A shell on which [enable_runtype(strict=False, ...)] has succeeded. *)
Definition enabled_world : World :=
  (enable_runtype repr (VBool false) (VBool true) (VBool false) (VBool true) fresh_world).2.

Definition enabled_shell : InteractiveShell :=
  default fresh_shell (get_ipython enabled_world).

(** A shell whose attribute store refuses the name [_runtype_enabled]. *)
Definition refusing_shell : InteractiveShell :=
  mk_shell ∅ (Some [HostTransformer "autoawait"]) ∅ None
    (fun name =>
       if String.eqb name _RUNTYPE_ENABLED
       then Some (OtherException "AttributeError" "can't set attribute")
       else None).

Definition refusing_world : World := mk_world (Some refusing_shell) [].

(** A shell whose attribute store refuses the name [_runtype_config]. *)
Definition config_refusing_shell : InteractiveShell :=
  mk_shell ∅ (Some [HostTransformer "autoawait"]) ∅ None
    (fun name =>
       if String.eqb name _RUNTYPE_CONFIG
       then Some (OtherException "AttributeError" "can't set attribute")
       else None).

Definition config_refusing_world : World := mk_world (Some config_refusing_shell) [].

(** A shell that has no [ast_transformers] attribute. *)
Definition bare_shell : InteractiveShell :=
  mk_shell ∅ None ∅ None (fun _ => None).

(** A shell whose [push] raises. *)
Definition closed_shell : InteractiveShell :=
  mk_shell ∅ (Some []) ∅ (Some (OtherException "ValueError" "namespace is closed"))
    (fun _ => None).

End Samples.

(** * Properties *)

(** ** The transform pass *)

Section TransformPass.

Import Ast.

Lemma loop_breaks_count (decos : list expr) :
  loop_breaks decos = negb (Nat.eqb (count_marker decos) 0).
Proof.
  unfold count_marker.
  induction decos as [|deco rest IH]; simpl; [reflexivity|].
  destruct (is_marker deco); simpl; [reflexivity | exact IH].
Qed.

Lemma loop_breaks_elem (decos : list expr) :
  loop_breaks decos = true <-> exists deco, deco ∈ decos /\ is_marker deco = true.
Proof.
  induction decos as [|deco rest IH]; simpl.
  - split; [discriminate | intros (d & Hd & _); inversion Hd].
  - destruct (is_marker deco) eqn:Hm.
    + split; [intros _; exists deco; split; [left | exact Hm] | reflexivity].
    + rewrite IH. split; intros (d & Hd & Hd').
      * exists d. split; [right; exact Hd | exact Hd'].
      * apply elem_of_cons in Hd as [-> | Hd]; [congruence | eauto].
Qed.

Lemma marker_is_marker : is_marker (Name _RUNTYPE_WRAPPER Load) = true.
Proof. reflexivity. Qed.

Lemma visit_fields (n : def_node) :
  fields (visit n) = visit_FunctionDef (fields n).
Proof. destruct n; reflexivity. Qed.

Lemma visit_FunctionDef_breaks (d : def_fields) :
  loop_breaks (decorator_list (visit_FunctionDef d)) = true.
Proof.
  unfold visit_FunctionDef.
  destruct (loop_breaks (decorator_list d)) eqn:Hb; [exact Hb | reflexivity].
Qed.

Lemma visit_FunctionDef_idem (d : def_fields) :
  visit_FunctionDef (visit_FunctionDef d) = visit_FunctionDef d.
Proof.
  unfold visit_FunctionDef at 1. rewrite visit_FunctionDef_breaks. reflexivity.
Qed.

Lemma visit_FunctionDef_count (d : def_fields) :
  count_marker (decorator_list (visit_FunctionDef d))
  = Nat.max 1 (count_marker (decorator_list d)).
Proof.
  unfold visit_FunctionDef. rewrite loop_breaks_count.
  destruct (count_marker (decorator_list d)) as [|k] eqn:Hk; simpl.
  - unfold count_marker in *. simpl. rewrite Hk. reflexivity.
  - rewrite Hk. reflexivity.
Qed.

(** C2, as the code has it: the pass inserts the marker in front when no
    decorator carries its name and changes nothing when one does, so a second
    application changes nothing; the number of marker entries afterwards is
    the larger of one and the number the node came with, hence exactly one
    for a node that came with at most one. *)
Theorem transform_pass_idempotent (n : def_node) :
  let before := decorator_list (fields n) in
  (count_marker before = 0 ->
     decorator_list (fields (visit n)) = Name _RUNTYPE_WRAPPER Load :: before)
  /\ (0 < count_marker before -> visit n = n)
  /\ visit (visit n) = visit n
  /\ count_marker (decorator_list (fields (visit (visit n))))
     = Nat.max 1 (count_marker before)
  /\ (count_marker before <= 1 ->
      count_marker (decorator_list (fields (visit (visit n)))) = 1).
Proof.
  intros before.
  assert (Hidem : visit (visit n) = visit n).
  { destruct n; simpl; unfold visit_AsyncFunctionDef;
      fold (visit_FunctionDef d); rewrite ?visit_FunctionDef_idem;
      try reflexivity.
    fold (visit_FunctionDef (visit_FunctionDef d)).
    rewrite visit_FunctionDef_idem. reflexivity. }
  assert (Hcount : count_marker (decorator_list (fields (visit (visit n))))
                   = Nat.max 1 (count_marker before)).
  { rewrite Hidem, visit_fields. apply visit_FunctionDef_count. }
  repeat split.
  - intros H0. rewrite visit_fields. unfold visit_FunctionDef.
    rewrite loop_breaks_count. fold before. rewrite H0. reflexivity.
  - intros Hpos.
    assert (Hb : loop_breaks (decorator_list (fields n)) = true).
    { rewrite loop_breaks_count. fold before.
      destruct (count_marker before); [lia | reflexivity]. }
    destruct n; simpl in *; unfold visit_FunctionDef, visit_AsyncFunctionDef;
      rewrite Hb; reflexivity.
  - exact Hidem.
  - exact Hcount.
  - intros Hle. rewrite Hcount. lia.
Qed.

Lemma transform_pass_idempotent_witness :
  visit (visit plain_def) = visit plain_def
  /\ count_marker (decorator_list (fields (visit (visit plain_def)))) = 1.
Proof.
  destruct (transform_pass_idempotent plain_def) as (_ & _ & Hidem & _ & Hone).
  split; [exact Hidem | apply Hone; vm_compute; lia].
Defined.

(** C2, as stated, fails: a definition that already carries the marker twice
    keeps both entries however often the pass runs. *)
Lemma transform_pass_keeps_duplicates :
  ~ (forall n : def_node,
       count_marker (decorator_list (fields (visit (visit n)))) = 1).
Proof.
  intros H. specialize (H twice_decorated). vm_compute in H. discriminate H.
Qed.

End TransformPass.

(** ** The decorator and its wrappers *)

Lemma dict_get_set (d : Dict) (k : string) (v : PyVal) :
  dict_get (dict_set d k v) k = Some v.
Proof.
  induction d as [|[k' v'] rest IH]; simpl.
  - rewrite String.eqb_refl. reflexivity.
  - destruct (String.eqb k' k) eqn:Hk; simpl; rewrite Hk; [reflexivity | exact IH].
Qed.

Lemma no_runtype_sets_flag (func : Func) :
  getattr (no_runtype func) _RUNTYPE_EXCLUSION (VBool false) = VBool true.
Proof.
  unfold getattr, no_runtype, setattr. simpl. rewrite dict_get_set. reflexivity.
Qed.

Section Wrappers.

Context (repr : PyVal -> string) (E : Engine).

Ltac unfold_wrappers :=
  unfold invoke, call_await, call, wrapper, async_wrapper, async_wrapper_body,
    get_validated_func, validate_call, validated_run, call_func, await,
    mbind, Outcome_bind, fmap, Outcome_fmap in *.

(** A function whose exclusion attribute is truthy comes back as it is. *)
Lemma flagged_function_is_returned (cl : Closure) (func : Func) :
  truthy (getattr func _RUNTYPE_EXCLUSION (VBool false)) = true ->
  _runtype cl func = Same func.
Proof. intros H. unfold _runtype. rewrite H. reflexivity. Qed.

(** What the [except] clauses do, in both directions: a value leaves as it
    came; a [ValidationError] becomes the [RuntypeError] over its entries and
    a [PydanticSchemaGenerationError] the one over the generic entry, each
    kept as [original_exception] and cause; any other exception leaves as it
    came; and nothing else can come out, so neither of the two engine
    failures ever reaches the caller. *)
Theorem except_clauses_converts_only_engine_failures {A : Type} (body : Outcome A) :
  (forall a, except_clauses repr body = Return a <-> body = Return a)
  /\ (forall e',
        except_clauses repr body = Raise e' <->
        (body = Raise e' /\ is_engine_failure e' = false)
        \/ (exists errs text,
              body = Raise (ValidationError errs text)
              /\ e' = RuntypeError errs (Some (ValidationError errs text))
                        (_format_errors repr errs) (Some (ValidationError errs text)))
        \/ (exists m,
              body = Raise (PydanticSchemaGenerationError m)
              /\ e' = RuntypeError [schema_failure]
                        (Some (PydanticSchemaGenerationError m))
                        (_format_errors repr [schema_failure])
                        (Some (PydanticSchemaGenerationError m))))
  /\ (forall e', except_clauses repr body = Raise e' -> is_engine_failure e' = false).
Proof.
  assert (Hraise : forall e',
    except_clauses repr body = Raise e' <->
    (body = Raise e' /\ is_engine_failure e' = false)
    \/ (exists errs text,
          body = Raise (ValidationError errs text)
          /\ e' = RuntypeError errs (Some (ValidationError errs text))
                    (_format_errors repr errs) (Some (ValidationError errs text)))
    \/ (exists m,
          body = Raise (PydanticSchemaGenerationError m)
          /\ e' = RuntypeError [schema_failure]
                    (Some (PydanticSchemaGenerationError m))
                    (_format_errors repr [schema_failure])
                    (Some (PydanticSchemaGenerationError m)))).
  { intros e'. split.
    - destruct body as [a|e]; simpl; [discriminate|].
      destruct e; simpl; intros [= <-]; eauto 10.
    - intros [[-> He] | [(errs & text & -> & ->) | (m & -> & ->)]];
        [destruct e'; try discriminate He; reflexivity | reflexivity | reflexivity]. }
  split; [|split; [exact Hraise|]].
  - intros a. destruct body as [a0|e]; simpl; [tauto|].
    split; [destruct e; discriminate | discriminate].
  - intros e' H. apply Hraise in H as [[_ He] | [(errs & text & _ & ->) | (m & _ & ->)]];
      [exact He | reflexivity | reflexivity].
Qed.

(** C7: a function marked with [no_runtype] carries the exclusion flag, the
    decorator hands that same function back whatever closure it was built
    with, and calling the result runs the function's body on the arguments
    as given, the engine never being asked. *)
Theorem excluded_function_is_not_wrapped (cl : Closure) (func : Func)
    (args : list PyVal) (kwargs : Dict) :
  getattr (no_runtype func) _RUNTYPE_EXCLUSION (VBool false) = VBool true
  /\ _runtype cl (no_runtype func) = Same (no_runtype func)
  /\ call repr E (_runtype cl (no_runtype func)) args kwargs = call_func func args kwargs
  /\ invoke repr E (_runtype cl (no_runtype func)) args kwargs = fn_body func args kwargs.
Proof.
  assert (Hsame : _runtype cl (no_runtype func) = Same (no_runtype func)).
  { apply flagged_function_is_returned. rewrite no_runtype_sets_flag. reflexivity. }
  split; [apply no_runtype_sets_flag|]. split; [exact Hsame|].
  rewrite Hsame. split; [reflexivity|].
  unfold_wrappers. simpl.
  destruct (fn_is_coroutine func); simpl; [reflexivity|].
  destruct (fn_body func args kwargs); reflexivity.
Qed.

(** C1: with the closure of the default configuration around
    [def f(x: int) -> int: return x + 1], and an engine that accepts the
    integer 1 and the result 2 and rejects the string with one error entry
    at parameter [x]: [f(1)] returns 2, and [f('a')] raises a [RuntypeError]
    whose list is that one entry and whose [original_exception] is the
    engine's exception. *)
Theorem sync_wrapper_validates_int_function (d : ErrorDetails) (text : string) :
  generate_schema E Samples.all_true Samples.int_to_int = None ->
  validate_arguments E Samples.all_true Samples.int_to_int [VInt 1] [] = inr ([VInt 1], []) ->
  validate_return_value E Samples.all_true Samples.int_to_int (VInt 2) = inr (VInt 2) ->
  validate_arguments E Samples.all_true Samples.int_to_int [VStr "a"] [] = inl ([d], text) ->
  refers_to_param Samples.int_to_int "x" d = true ->
  call repr E (_runtype Samples.default_closure Samples.f) [VInt 1] [] = Return (OVal (VInt 2))
  /\ exists err cause,
       call repr E (_runtype Samples.default_closure Samples.f) [VStr "a"] []
       = Raise (RuntypeError [err] (Some (ValidationError [d] text))
                  (_format_errors repr [err]) cause)
       /\ refers_to_param Samples.int_to_int "x" err = true
       /\ cause = Some (ValidationError [d] text).
Proof.
  intros Hschema Hone Hret Hbad Hloc.
  change (_runtype Samples.default_closure Samples.f)
    with (SyncWrapped Samples.default_closure Samples.f).
  unfold_wrappers. simpl. rewrite Hschema. simpl. split.
  - rewrite Hone. simpl. unfold check_return. change (1 + 1)%Z with 2%Z.
    rewrite Hret. simpl. rewrite Hret. reflexivity.
  - rewrite Hbad. simpl. exists d, (Some (ValidationError [d] text)).
    repeat split. exact Hloc.
Qed.

(** C3: when the engine has a schema and lets the arguments through, and the
    function's body then raises an exception that is neither of the engine's
    two failures, the wrapped function raises that very exception, on the
    synchronous and on the asynchronous path. The body of a coroutine
    function is only reached once the engine, if the configuration asks it,
    has let the un-awaited coroutine object through: the fourth hypothesis. *)
Theorem body_exception_passes_through (cl : Closure) (func : Func)
    (args args' : list PyVal) (kwargs kwargs' : Dict) (e : Exn) :
  truthy (getattr func _RUNTYPE_EXCLUSION (VBool false)) = false ->
  generate_schema E (cl_config cl) (fn_sig func) = None ->
  validate_arguments E (cl_config cl) (fn_sig func) args kwargs = inr (args', kwargs') ->
  (fn_is_coroutine func = true ->
   config_validate_return (cl_config cl) = true ->
   exists c,
     validate_return_value E (cl_config cl) (fn_sig func) coroutine_object = inr c) ->
  fn_body func args' kwargs' = Raise e ->
  is_engine_failure e = false ->
  invoke repr E (_runtype cl func) args kwargs = Raise e
  /\ (fn_is_coroutine func = false -> call repr E (_runtype cl func) args kwargs = Raise e)
  /\ (fn_is_coroutine func = true ->
      call_await repr E (_runtype cl func) args kwargs = Raise e).
Proof.
  intros Hflag Hschema Hargs Hcoro Hbody He.
  unfold _runtype. rewrite Hflag.
  destruct (fn_is_coroutine func) eqn:Hco; unfold_wrappers; simpl;
    rewrite Hschema; simpl; rewrite ?Hco; simpl; rewrite Hargs; simpl.
  - assert (Hpast : (if config_validate_return (cl_config cl)
                     then check_return E (cl_config cl) (fn_sig func) coroutine_object
                     else Return coroutine_object)
                    = Return coroutine_object
                    \/ exists c,
                         (if config_validate_return (cl_config cl)
                          then check_return E (cl_config cl) (fn_sig func) coroutine_object
                          else Return coroutine_object) = Return c).
    { destruct (config_validate_return (cl_config cl)); [|left; reflexivity].
      destruct (Hcoro eq_refl eq_refl) as [c Hc]. right. exists c.
      unfold check_return. rewrite Hc. reflexivity. }
    destruct Hpast as [-> | [c ->]]; rewrite Hbody;
      destruct e; try discriminate He; simpl;
      (split; [reflexivity | split; intros; (reflexivity || discriminate)]).
  - rewrite Hbody. destruct e; try discriminate He; simpl;
      (split; [reflexivity | split; intros; (reflexivity || discriminate)]).
Qed.

(** C8, where the code falls short. The closure of the default
    configuration holds [validate_return] in its dictionary, so the engine is
    asked about what the coroutine function hands back before it is awaited.
    With an engine that accepts the integer 1 and the result 2 and rejects a
    coroutine object against [int]: the wrapped [def f] returns 2, the
    unwrapped [async def g] awaited returns 2, and the wrapped [g] awaited
    raises a [RuntypeError] with the engine's entry, its body never run. *)
Theorem async_call_fails_on_coroutine_object (d : ErrorDetails) (text : string) :
  generate_schema E Samples.all_true Samples.int_to_int = None ->
  validate_arguments E Samples.all_true Samples.int_to_int [VInt 1] [] = inr ([VInt 1], []) ->
  validate_return_value E Samples.all_true Samples.int_to_int (VInt 2) = inr (VInt 2) ->
  validate_return_value E Samples.all_true Samples.int_to_int coroutine_object
  = inl ([d], text) ->
  call repr E (_runtype Samples.default_closure Samples.f) [VInt 1] [] = Return (OVal (VInt 2))
  /\ (aw ← call_func Samples.g [VInt 1] []; await aw) = Return (VInt 2)
  /\ call_await repr E (_runtype Samples.default_closure Samples.g) [VInt 1] []
     = Raise (RuntypeError [d] (Some (ValidationError [d] text))
                (_format_errors repr [d]) (Some (ValidationError [d] text))).
Proof.
  intros Hschema Hone Hret Hcoro.
  change (_runtype Samples.default_closure Samples.f)
    with (SyncWrapped Samples.default_closure Samples.f).
  change (_runtype Samples.default_closure Samples.g)
    with (AsyncWrapped Samples.default_closure Samples.g).
  split; [|split; [reflexivity|]].
  - unfold_wrappers. simpl. rewrite Hschema. simpl. rewrite Hone. simpl.
    unfold check_return. change (1 + 1)%Z with 2%Z.
    rewrite Hret. simpl. rewrite Hret. reflexivity.
  - unfold_wrappers. simpl. rewrite Hschema. simpl. rewrite Hone. simpl.
    unfold check_return. rewrite Hcoro. reflexivity.
Qed.

End Wrappers.

(** [enable_runtype()] with its defaults binds [_runtype] to the closure of
    the default configuration. *)
Lemma default_enable_installs_default_closure (repr : PyVal -> string) :
  (get_ipython
     (enable_runtype repr (VBool true) (VBool true) (VBool true) (VBool true)
        Samples.fresh_world).2
   ≫= fun ip => user_ns ip !! _RUNTYPE_WRAPPER)
  = Some (NsRuntype Samples.default_closure).
Proof. vm_compute. reflexivity. Qed.

Lemma sync_wrapper_validates_int_function_witness :
  call Samples.repr Samples.strict_engine
       (_runtype Samples.default_closure Samples.f) [VInt 1] []
  = Return (OVal (VInt 2))
  /\ exists err cause,
       call Samples.repr Samples.strict_engine
            (_runtype Samples.default_closure Samples.f) [VStr "a"] []
       = Raise (RuntypeError [err]
                  (Some (ValidationError
                           [mk_error (Some [LocInt 0])
                                     (Some "Input should be a valid integer")
                                     (Some (VStr "a"))]
                           "1 validation error(s)"))
                  (_format_errors Samples.repr [err]) cause)
       /\ refers_to_param Samples.int_to_int "x" err = true
       /\ cause = Some (ValidationError
                          [mk_error (Some [LocInt 0])
                                    (Some "Input should be a valid integer")
                                    (Some (VStr "a"))]
                          "1 validation error(s)").
Proof.
  apply (sync_wrapper_validates_int_function Samples.repr Samples.strict_engine
           (mk_error (Some [LocInt 0]) (Some "Input should be a valid integer")
                     (Some (VStr "a")))
           "1 validation error(s)");
    vm_compute; reflexivity.
Defined.

Lemma body_exception_passes_through_witness :
  invoke Samples.repr Samples.strict_engine
         (_runtype Samples.default_closure Samples.inv) [VInt 0] []
  = Raise (OtherException "ZeroDivisionError" "integer division or modulo by zero")
  /\ call_await Samples.repr Samples.strict_engine
                (_runtype Samples.no_return_closure Samples.ainv) [VInt 0] []
     = Raise (OtherException "ZeroDivisionError" "integer division or modulo by zero").
Proof.
  split.
  - refine (proj1 (body_exception_passes_through Samples.repr Samples.strict_engine
                     Samples.default_closure Samples.inv [VInt 0] [VInt 0] [] []
                     (OtherException "ZeroDivisionError"
                                     "integer division or modulo by zero") _ _ _ _ _ _));
      try (vm_compute; reflexivity).
    vm_compute. discriminate.
  - refine (proj2 (proj2 (body_exception_passes_through Samples.repr Samples.strict_engine
                            Samples.no_return_closure Samples.ainv [VInt 0] [VInt 0] [] []
                            (OtherException "ZeroDivisionError"
                                            "integer division or modulo by zero")
                            _ _ _ _ _ _)) _);
      try (vm_compute; reflexivity).
    vm_compute. discriminate.
Defined.

Lemma async_call_fails_on_coroutine_object_witness :
  call Samples.repr Samples.strict_engine
       (_runtype Samples.default_closure Samples.f) [VInt 1] []
  = Return (OVal (VInt 2))
  /\ (aw ← call_func Samples.g [VInt 1] []; await aw) = Return (VInt 2)
  /\ call_await Samples.repr Samples.strict_engine
                (_runtype Samples.default_closure Samples.g) [VInt 1] []
     = Raise (RuntypeError
                [mk_error (Some [LocStr "return"]) (Some "Input should be a valid integer")
                          (Some coroutine_object)]
                (Some (ValidationError
                         [mk_error (Some [LocStr "return"])
                                   (Some "Input should be a valid integer")
                                   (Some coroutine_object)]
                         "1 validation error(s)"))
                (_format_errors Samples.repr
                   [mk_error (Some [LocStr "return"])
                             (Some "Input should be a valid integer")
                             (Some coroutine_object)])
                (Some (ValidationError
                         [mk_error (Some [LocStr "return"])
                                   (Some "Input should be a valid integer")
                                   (Some coroutine_object)]
                         "1 validation error(s)"))).
Proof.
  apply (async_call_fails_on_coroutine_object Samples.repr Samples.strict_engine
           (mk_error (Some [LocStr "return"]) (Some "Input should be a valid integer")
                     (Some coroutine_object))
           "1 validation error(s)");
    vm_compute; reflexivity.
Defined.

(** ** Session control *)

Lemma shell_hasattr_true (ip : InteractiveShell) (name : string) :
  shell_hasattr ip name = true <-> is_Some (attrs ip !! name).
Proof. unfold shell_hasattr. apply bool_decide_eq_true. Qed.

Lemma shell_hasattr_false (ip : InteractiveShell) (name : string) :
  shell_hasattr ip name = false <-> attrs ip !! name = None.
Proof.
  unfold shell_hasattr. rewrite bool_decide_eq_false, eq_None_not_Some. reflexivity.
Qed.

Lemma config_is_not_enabled : _RUNTYPE_CONFIG ≠ _RUNTYPE_ENABLED.
Proof. discriminate. Qed.

Section SessionProperties.

Context (repr : PyVal -> string).

(** With boolean flags, a shell that is not enabled and lets every step
    through, [enable_runtype] returns and leaves exactly this world. *)
Lemma enable_runtype_succeeds (s vr vd a : bool) (w : World) (ip : InteractiveShell)
    (ts : list Transformer) :
  get_ipython w = Some ip ->
  _is_runtype_enabled ip = false ->
  push_fault ip = None ->
  ast_transformers ip = Some ts ->
  setattr_fault ip _RUNTYPE_ENABLED = None ->
  setattr_fault ip _RUNTYPE_CONFIG = None ->
  let config : Dict :=
    [("strict", VBool s); ("validate_return", VBool vr);
     ("validate_default", VBool vd); ("arbitrary_types_allowed", VBool a)] in
  enable_runtype repr (VBool s) (VBool vr) (VBool vd) (VBool a) w
  = (Return tt,
     print ("runtype enabled with config=" +:+ dict_str repr config)
       (with_shell w
          (mk_shell
             (<[_RUNTYPE_WRAPPER := NsRuntype (mk_closure config (VBool vr))]> (user_ns ip))
             (Some (ts ++ [RuntypeASTDecorator])%list)
             (<[_RUNTYPE_CONFIG := VDict config]>
                (<[_RUNTYPE_ENABLED := VBool true]> (attrs ip)))
             (push_fault ip) (setattr_fault ip)))).
Proof.
  intros Hip Hoff Hpush Hts Hset1 Hset2 config.
  unfold enable_runtype, _get_ipython_context. rewrite Hip.
  cbn [forallb is_bool andb negb]. rewrite Hoff.
  unfold push. rewrite Hpush.
  unfold register_transformer, append_transformer, shell_setattr,
    with_user_ns, with_ast_transformers, with_attrs.
  cbn [setattr_fault attrs user_ns ast_transformers push_fault]. rewrite Hts.
  cbn [setattr_fault attrs user_ns ast_transformers push_fault]. rewrite Hset1.
  cbn [setattr_fault attrs user_ns ast_transformers push_fault].
  rewrite Hset2, ?Hpush. reflexivity.
Qed.

(** With boolean flags and an enabled shell, [enable_runtype] prints its
    notice and returns. *)
Lemma enable_runtype_already_enabled (s vr vd a : PyVal) (w : World)
    (ip : InteractiveShell) :
  forallb is_bool [s; vr; vd; a] = true ->
  get_ipython w = Some ip ->
  _is_runtype_enabled ip = true ->
  enable_runtype repr s vr vd a w = (Return tt, print "runtype already enabled." w).
Proof.
  intros Hbool Hip Hon.
  unfold enable_runtype, _get_ipython_context. rewrite Hbool, Hip. simpl.
  rewrite Hon. reflexivity.
Qed.

(** C5: from a shell that is not enabled and lets [enable_runtype] through,
    [enable_runtype] with four boolean flags returns, the session is enabled,
    and [get_runtype_config] then returns the dictionary of exactly these
    four flags. *)
Theorem enable_then_get_config (s vr vd a : bool) (w : World) (ip : InteractiveShell) :
  get_ipython w = Some ip ->
  _is_runtype_enabled ip = false ->
  cooperative ip ->
  exists w',
    enable_runtype repr (VBool s) (VBool vr) (VBool vd) (VBool a) w = (Return tt, w')
    /\ is_runtype_enabled w' = true
    /\ get_runtype_config w'
       = Return (VDict [("strict", VBool s); ("validate_return", VBool vr);
                        ("validate_default", VBool vd);
                        ("arbitrary_types_allowed", VBool a)]).
Proof.
  intros Hip Hoff (Hpush & [ts Hts] & Hset1 & Hset2).
  eexists. split.
  - apply (enable_runtype_succeeds s vr vd a w ip ts); assumption.
  - assert (Hon : forall (ns : gmap string NsObj) l (c : PyVal) pf sf,
               _is_runtype_enabled
                 (mk_shell ns l (<[_RUNTYPE_CONFIG := c]>
                                   (<[_RUNTYPE_ENABLED := VBool true]> (attrs ip))) pf sf)
               = true).
    { intros. apply shell_hasattr_true. cbn [attrs].
      rewrite lookup_insert_ne by apply config_is_not_enabled.
      rewrite lookup_insert_eq. eauto. }
    unfold is_runtype_enabled, get_runtype_config, _get_ipython_context.
    cbn [print with_shell get_ipython]. rewrite Hon. cbn [negb attrs].
    rewrite lookup_insert_eq. split; reflexivity.
Qed.

(** C6: with boolean flags on an enabled session, [enable_runtype] returns
    after printing its notice and nothing else: the shell is the one it was,
    the session stays enabled and [get_runtype_config] answers as before. *)
Theorem enable_when_enabled_is_noop (s vr vd a : PyVal) (w : World)
    (ip : InteractiveShell) :
  forallb is_bool [s; vr; vd; a] = true ->
  get_ipython w = Some ip ->
  _is_runtype_enabled ip = true ->
  exists w',
    enable_runtype repr s vr vd a w = (Return tt, w')
    /\ get_ipython w' = Some ip
    /\ stdout w' = (stdout w ++ ["runtype already enabled."])%list
    /\ is_runtype_enabled w' = true
    /\ get_runtype_config w' = get_runtype_config w.
Proof.
  intros Hbool Hip Hon. eexists. split.
  - apply (enable_runtype_already_enabled s vr vd a w ip); assumption.
  - unfold is_runtype_enabled, get_runtype_config, _get_ipython_context.
    cbn [print get_ipython stdout]. rewrite Hip, Hon. repeat split.
Qed.

(** C6, as a run: after a first [enable_runtype] that went through, a second
    one with any boolean flags leaves the configuration of the first. *)
Lemma second_enable_keeps_first_config (s vr vd a s' vr' vd' a' : bool) (w : World)
    (ip : InteractiveShell) :
  get_ipython w = Some ip ->
  _is_runtype_enabled ip = false ->
  cooperative ip ->
  let w1 := (enable_runtype repr (VBool s) (VBool vr) (VBool vd) (VBool a) w).2 in
  let w2 := (enable_runtype repr (VBool s') (VBool vr') (VBool vd') (VBool a') w1).2 in
  get_runtype_config w2
  = Return (VDict [("strict", VBool s); ("validate_return", VBool vr);
                   ("validate_default", VBool vd);
                   ("arbitrary_types_allowed", VBool a)])
  /\ get_ipython w2 = get_ipython w1.
Proof.
  intros Hip Hoff (Hpush & [ts Hts] & Hset1 & Hset2) w1 w2.
  pose proof (enable_runtype_succeeds s vr vd a w ip ts Hip Hoff Hpush Hts Hset1 Hset2)
    as Hfirst.
  cbv zeta in Hfirst.
  assert (Hw1 : w1 = (enable_runtype repr (VBool s) (VBool vr) (VBool vd) (VBool a) w).2)
    by reflexivity.
  rewrite Hfirst in Hw1. cbn [snd] in Hw1.
  assert (Hon : exists ip1, get_ipython w1 = Some ip1
                            /\ _is_runtype_enabled ip1 = true
                            /\ attrs ip1 !! _RUNTYPE_CONFIG
                               = Some (VDict [("strict", VBool s);
                                              ("validate_return", VBool vr);
                                              ("validate_default", VBool vd);
                                              ("arbitrary_types_allowed", VBool a)])).
  { rewrite Hw1. eexists. split; [reflexivity|]. split.
    - apply shell_hasattr_true. cbn [attrs].
      rewrite lookup_insert_ne by apply config_is_not_enabled.
      rewrite lookup_insert_eq. eauto.
    - cbn [attrs]. apply lookup_insert_eq. }
  destruct Hon as (ip1 & Hip1 & Hen1 & Hcfg1).
  assert (Hw2 : w2 = print "runtype already enabled." w1).
  { unfold w2.
    rewrite (enable_runtype_already_enabled (VBool s') (VBool vr') (VBool vd') (VBool a')
               w1 ip1 eq_refl Hip1 Hen1).
    reflexivity. }
  rewrite Hw2. unfold get_runtype_config, _get_ipython_context.
  cbn [print get_ipython]. rewrite Hip1, Hen1. cbn [negb]. rewrite Hcfg1.
  split; reflexivity.
Qed.

(** C10: when one of the four flags is not a [bool], [enable_runtype] raises
    [TypeError] and the world is as before: nothing printed, the shell (if
    there is one, enabled or not) untouched. *)
Theorem enable_rejects_non_boolean_flags (s vr vd a : PyVal) (w : World) :
  forallb is_bool [s; vr; vd; a] = false ->
  enable_runtype repr s vr vd a w
  = (Raise (TypeError "All parameters must be boolean values"), w).
Proof.
  intros Hbool. unfold enable_runtype. rewrite Hbool. reflexivity.
Qed.

(** After [disable_runtype] the shell no longer has the enabled flag. *)
Lemma disable_runtype_clears_flag (w : World) (ip : InteractiveShell) :
  get_ipython w = Some ip ->
  exists ip', get_ipython (disable_runtype w).2 = Some ip'
              /\ _is_runtype_enabled ip' = false.
Proof.
  intros Hip. unfold disable_runtype, _get_ipython_context. rewrite Hip.
  destruct (_is_runtype_enabled ip) eqn:Hen; cbn [negb snd].
  - cbv zeta. cbn [print with_shell get_ipython].
    eexists. split; [reflexivity|].
    apply shell_hasattr_false.
    assert (Hprior : shell_hasattr ip _RUNTYPE_ENABLED = true) by exact Hen.
    destruct (ast_transformers ip) as [ts|];
      unfold with_ast_transformers, shell_hasattr in *;
      cbn [attrs] in *; rewrite Hprior; unfold shell_delattr, with_attrs;
      cbn [attrs user_ns];
      repeat match goal with
             | |- context [bool_decide ?P] => destruct (bool_decide P)
             end;
      unfold with_user_ns, with_attrs; cbn [attrs];
      rewrite ?(lookup_delete_ne _ _RUNTYPE_CONFIG _RUNTYPE_ENABLED)
        by apply config_is_not_enabled;
      apply lookup_delete_eq.
  - exists ip. split; [exact Hip | exact Hen].
Qed.

(** C9: whenever [is_runtype_enabled] is false, [get_runtype_config] raises
    and returns nothing; on a shell without the enabled flag the error is
    the not-enabled [RuntimeError], whatever attributes the shell still
    carries; on an enabled shell the result is what is stored under
    [_runtype_config]; and right after [disable_runtype] the not-enabled
    error is raised again, so the configuration of an earlier enablement is
    never returned. *)
Theorem get_config_requires_enabled (w : World) :
  (is_runtype_enabled w = false ->
   exists msg, get_runtype_config w = Raise (RuntimeError msg None))
  /\ (forall ip, get_ipython w = Some ip ->
                 _is_runtype_enabled ip = false ->
                 get_runtype_config w = Raise (RuntimeError "runtype is not enabled." None))
  /\ (forall ip c, get_ipython w = Some ip ->
                   _is_runtype_enabled ip = true ->
                   attrs ip !! _RUNTYPE_CONFIG = Some c ->
                   get_runtype_config w = Return c)
  /\ (forall ip, get_ipython w = Some ip ->
                 get_runtype_config (disable_runtype w).2
                 = Raise (RuntimeError "runtype is not enabled." None)).
Proof.
  repeat split.
  - unfold is_runtype_enabled, get_runtype_config, _get_ipython_context.
    destruct (get_ipython w) as [ip|]; [|eauto].
    intros ->. eauto.
  - intros ip Hip Hoff. unfold get_runtype_config, _get_ipython_context.
    rewrite Hip, Hoff. reflexivity.
  - intros ip c Hip Hon Hc. unfold get_runtype_config, _get_ipython_context.
    rewrite Hip, Hon. cbn [negb]. rewrite Hc. reflexivity.
  - intros ip Hip.
    destruct (disable_runtype_clears_flag w ip Hip) as (ip' & Hip' & Hoff).
    unfold get_runtype_config, _get_ipython_context.
    rewrite Hip', Hoff. reflexivity.
Qed.

(** When [ip.push] raises, [enable_runtype] raises its [RuntimeError] and
    the world is as before. *)
Lemma enable_push_failure_changes_nothing (s vr vd a : bool) (w : World)
    (ip : InteractiveShell) (e : Exn) :
  get_ipython w = Some ip ->
  _is_runtype_enabled ip = false ->
  push_fault ip = Some e ->
  is_Exception e = true ->
  enable_runtype repr (VBool s) (VBool vr) (VBool vd) (VBool a) w
  = (Raise (RuntimeError ("Failed to inject runtype decorator: " +:+ exn_str e) (Some e)),
     w).
Proof.
  intros Hip Hoff Hpush He.
  unfold enable_runtype, _get_ipython_context. rewrite Hip.
  cbn [forallb is_bool andb negb]. rewrite Hoff.
  unfold push. rewrite Hpush, He. reflexivity.
Qed.

(** When the shell has no transformer list, the append raises, the entry
    [_runtype] is taken out of the namespace again and the world is as
    before. *)
Lemma enable_append_failure_rolls_back (s vr vd a : bool) (w : World)
    (ip : InteractiveShell) :
  get_ipython w = Some ip ->
  _is_runtype_enabled ip = false ->
  push_fault ip = None ->
  ast_transformers ip = None ->
  user_ns ip !! _RUNTYPE_WRAPPER = None ->
  exists e,
    enable_runtype repr (VBool s) (VBool vr) (VBool vd) (VBool a) w
    = (Raise (RuntimeError ("Failed to register AST transformer: " +:+ exn_str e)
                           (Some e)),
       w).
Proof.
  intros Hip Hoff Hpush Hts Hns.
  unfold enable_runtype, _get_ipython_context. rewrite Hip.
  cbn [forallb is_bool andb negb]. rewrite Hoff.
  unfold push. rewrite Hpush.
  unfold register_transformer, append_transformer, with_user_ns.
  cbn [ast_transformers]. rewrite Hts. cbn [is_Exception].
  eexists. f_equal.
  unfold cleanup_namespace, with_user_ns. cbn [user_ns ast_transformers attrs
    push_fault setattr_fault].
  rewrite lookup_insert_eq, bool_decide_eq_true_2 by eauto.
  rewrite delete_insert_id by exact Hns.
  destruct w as [sh out], ip as [ns ts at_ pf sf]; simpl in *.
  subst. reflexivity.
Qed.

End SessionProperties.

(** C4, where the code falls short: the shell accepts the push and the
    append and then refuses to store [_runtype_enabled]. [enable_runtype]
    raises, the namespace entry is removed, the session is not enabled, and
    the transform pass stays in the shell's list. *)
Theorem enable_failure_keeps_transform_pass (repr : PyVal -> string) :
  let r := enable_runtype repr (VBool true) (VBool true) (VBool true) (VBool true)
             Samples.refusing_world in
  r.1 = Raise (RuntimeError "Failed to register AST transformer: can't set attribute"
                 (Some (OtherException "AttributeError" "can't set attribute")))
  /\ ast_transformers <$> get_ipython Samples.refusing_world
     = Some (Some [HostTransformer "autoawait"])
  /\ ast_transformers <$> get_ipython r.2
     = Some (Some [HostTransformer "autoawait"; RuntypeASTDecorator])
  /\ is_runtype_enabled r.2 = false
  /\ (get_ipython r.2 ≫= fun ip => user_ns ip !! _RUNTYPE_WRAPPER) = None.
Proof. vm_compute. repeat split. Qed.

(** The same shortfall one statement later: when the shell refuses to store
    [_runtype_config], the session is left enabled with the transform pass
    registered, no decorator in the namespace and no configuration. *)
Lemma enable_failure_keeps_enabled_flag (repr : PyVal -> string) :
  let r := enable_runtype repr (VBool true) (VBool true) (VBool true) (VBool true)
             Samples.config_refusing_world in
  r.1 = Raise (RuntimeError "Failed to register AST transformer: can't set attribute"
                 (Some (OtherException "AttributeError" "can't set attribute")))
  /\ ast_transformers <$> get_ipython r.2
     = Some (Some [HostTransformer "autoawait"; RuntypeASTDecorator])
  /\ is_runtype_enabled r.2 = true
  /\ get_runtype_config r.2 = Return (VDict [])
  /\ (get_ipython r.2 ≫= fun ip => user_ns ip !! _RUNTYPE_WRAPPER) = None.
Proof. vm_compute. repeat split. Qed.

Lemma enable_then_get_config_witness :
  exists w',
    enable_runtype Samples.repr (VBool false) (VBool true) (VBool false) (VBool true)
      Samples.fresh_world = (Return tt, w')
    /\ is_runtype_enabled w' = true
    /\ get_runtype_config w'
       = Return (VDict [("strict", VBool false); ("validate_return", VBool true);
                        ("validate_default", VBool false);
                        ("arbitrary_types_allowed", VBool true)]).
Proof.
  apply (enable_then_get_config Samples.repr false true false true
           Samples.fresh_world Samples.fresh_shell).
  - reflexivity.
  - vm_compute. reflexivity.
  - repeat split. simpl. eauto.
Defined.

Lemma enable_when_enabled_is_noop_witness :
  exists w',
    enable_runtype Samples.repr (VBool true) (VBool true) (VBool true) (VBool true)
      Samples.enabled_world = (Return tt, w')
    /\ get_ipython w' = Some Samples.enabled_shell
    /\ stdout w' = (stdout Samples.enabled_world ++ ["runtype already enabled."])%list
    /\ is_runtype_enabled w' = true
    /\ get_runtype_config w' = get_runtype_config Samples.enabled_world.
Proof.
  apply (enable_when_enabled_is_noop Samples.repr (VBool true) (VBool true) (VBool true)
           (VBool true) Samples.enabled_world Samples.enabled_shell);
    vm_compute; reflexivity.
Defined.

Lemma get_config_requires_enabled_witness :
  get_runtype_config Samples.fresh_world
  = Raise (RuntimeError "runtype is not enabled." None)
  /\ get_runtype_config Samples.enabled_world
     = Return (VDict [("strict", VBool false); ("validate_return", VBool true);
                      ("validate_default", VBool false);
                      ("arbitrary_types_allowed", VBool true)])
  /\ get_runtype_config (disable_runtype Samples.enabled_world).2
     = Raise (RuntimeError "runtype is not enabled." None).
Proof.
  split; [|split].
  - refine (proj1 (proj2 (get_config_requires_enabled Samples.fresh_world))
                  Samples.fresh_shell _ _);
      vm_compute; reflexivity.
  - refine (proj1 (proj2 (proj2 (get_config_requires_enabled Samples.enabled_world)))
                  Samples.enabled_shell _ _ _ _);
      vm_compute; reflexivity.
  - refine (proj2 (proj2 (proj2 (get_config_requires_enabled Samples.enabled_world)))
                  Samples.enabled_shell _);
      vm_compute; reflexivity.
Defined.

Lemma enable_rejects_non_boolean_flags_witness :
  enable_runtype Samples.repr (VInt 1) (VBool true) (VBool true) (VBool true)
    Samples.enabled_world
  = (Raise (TypeError "All parameters must be boolean values"), Samples.enabled_world)
  /\ enable_runtype Samples.repr (VBool true) (VBool true) VNone (VBool true)
       Samples.no_shell_world
     = (Raise (TypeError "All parameters must be boolean values"), Samples.no_shell_world).
Proof.
  split.
  - apply (enable_rejects_non_boolean_flags Samples.repr (VInt 1) (VBool true)
             (VBool true) (VBool true) Samples.enabled_world).
    reflexivity.
  - apply (enable_rejects_non_boolean_flags Samples.repr (VBool true) (VBool true)
             VNone (VBool true) Samples.no_shell_world).
    reflexivity.
Defined.

(** * Further properties *)

(** ** The transform pass on a single node *)

Section TransformPassMore.

Import Ast.

(** The pass touches nothing but the decorator list, keeps the node's class,
    keeps every decorator in its place (the list is the old one, or the
    marker followed by the old one), and leaves a list in which the loop
    finds the marker. *)
Theorem transform_pass_preserves_node (n : def_node) :
  name (fields (visit n)) = name (fields n)
  /\ lineno (fields (visit n)) = lineno (fields n)
  /\ match n, visit n with
     | FunctionDef _, FunctionDef _ | AsyncFunctionDef _, AsyncFunctionDef _ => True
     | _, _ => False
     end
  /\ (decorator_list (fields (visit n)) = decorator_list (fields n)
      \/ decorator_list (fields (visit n))
         = Name _RUNTYPE_WRAPPER Load :: decorator_list (fields n))
  /\ exists deco, deco ∈ decorator_list (fields (visit n)) /\ is_marker deco = true.
Proof.
  assert (Hfound : loop_breaks (decorator_list (fields (visit n))) = true).
  { rewrite visit_fields. apply visit_FunctionDef_breaks. }
  apply loop_breaks_elem in Hfound.
  destruct n as [d|d]; simpl in *;
    unfold visit_FunctionDef, visit_AsyncFunctionDef in *;
    destruct (loop_breaks (decorator_list d)); simpl in *; auto 10.
Qed.

(** Only a [Name] node can be the marker: when no decorator of the list has
    an [id] field at all (calls such as [@_runtype()], attribute accesses
    such as [@pkg._runtype]), the marker is inserted in front. *)
Theorem transform_pass_counts_names_only (n : def_node) :
  (forall deco, deco ∈ decorator_list (fields n) -> getattr_id deco = None) ->
  decorator_list (fields (visit n))
  = Name _RUNTYPE_WRAPPER Load :: decorator_list (fields n).
Proof.
  intros Hnone.
  assert (Hb : loop_breaks (decorator_list (fields n)) = false).
  { destruct (loop_breaks (decorator_list (fields n))) eqn:Hb; [|reflexivity].
    apply loop_breaks_elem in Hb as (deco & Hin & Hm).
    unfold is_marker in Hm. rewrite (Hnone deco Hin) in Hm. discriminate. }
  destruct n as [d|d]; simpl in *;
    unfold visit_FunctionDef, visit_AsyncFunctionDef; rewrite Hb; reflexivity.
Qed.

Lemma transform_pass_counts_names_only_witness :
  decorator_list
    (fields (visit (FunctionDef
                      (mk_def "h"
                         [Call (Name "_runtype" Load) [];
                          Attribute (Name "pkg" Load) "_runtype" Load] 7))))
  = [Name "_runtype" Load; Call (Name "_runtype" Load) [];
     Attribute (Name "pkg" Load) "_runtype" Load].
Proof.
  apply (transform_pass_counts_names_only
           (FunctionDef
              (mk_def "h"
                 [Call (Name "_runtype" Load) [];
                  Attribute (Name "pkg" Load) "_runtype" Load] 7))).
  intros deco Hin. simpl in Hin.
  apply elem_of_cons in Hin as [-> | Hin]; [reflexivity|].
  apply elem_of_cons in Hin as [-> | Hin]; [reflexivity|].
  inversion Hin.
Defined.

End TransformPassMore.

(** ** The exclusion marker *)

Lemma dict_get_set_ne (d : Dict) (k k' : string) (v : PyVal) :
  k <> k' -> dict_get (dict_set d k v) k' = dict_get d k'.
Proof.
  intros Hne. induction d as [|[k0 v0] rest IH]; simpl.
  - destruct (String.eqb k k') eqn:Hk; [|reflexivity].
    apply String.eqb_eq in Hk. contradiction.
  - destruct (String.eqb k0 k) eqn:Hk0; simpl.
    + apply String.eqb_eq in Hk0. subst k0.
      destruct (String.eqb k k') eqn:Hk; [|reflexivity].
      apply String.eqb_eq in Hk. contradiction.
    + rewrite IH. reflexivity.
Qed.

Lemma dict_set_set (d : Dict) (k : string) (v : PyVal) :
  dict_set (dict_set d k v) k v = dict_set d k v.
Proof.
  induction d as [|[k0 v0] rest IH]; simpl.
  - rewrite String.eqb_refl. reflexivity.
  - destruct (String.eqb k0 k) eqn:Hk0; simpl; rewrite Hk0; [reflexivity|].
    rewrite IH. reflexivity.
Qed.

(** [no_runtype] changes the one attribute [_no_runtype] and nothing else:
    every other attribute reads as before, name, signature, kind and body
    are the function's own, and marking twice is marking once. *)
Theorem no_runtype_only_sets_flag (func : Func) :
  no_runtype (no_runtype func) = no_runtype func
  /\ (forall attr fallback,
        attr <> _RUNTYPE_EXCLUSION ->
        getattr (no_runtype func) attr fallback = getattr func attr fallback)
  /\ fn_name (no_runtype func) = fn_name func
  /\ fn_sig (no_runtype func) = fn_sig func
  /\ fn_is_coroutine (no_runtype func) = fn_is_coroutine func
  /\ fn_body (no_runtype func) = fn_body func.
Proof.
  split; [|split; [|repeat split]].
  - unfold no_runtype, setattr. simpl. rewrite dict_set_set. reflexivity.
  - intros attr fallback Hne. unfold getattr, no_runtype, setattr. simpl.
    rewrite dict_get_set_ne by congruence. reflexivity.
Qed.

(** ** What the wrappers translate *)

(** When the engine, if asked, lets the un-awaited coroutine object through,
    the first step of a validated coroutine call completes. *)
Lemma coroutine_check_passes (E : Engine) (config : Dict) (sg : Signature) :
  (config_validate_return config = true ->
   exists c, validate_return_value E config sg coroutine_object = inr c) ->
  exists c,
    (if config_validate_return config
     then check_return E config sg coroutine_object
     else Return coroutine_object) = Return c.
Proof.
  intros Hpass. destruct (config_validate_return config); [|eauto].
  destruct (Hpass eq_refl) as [c Hc]. exists c.
  unfold check_return. rewrite Hc. reflexivity.
Qed.

Section WrappersMore.

Context (repr : PyVal -> string) (E : Engine).

Ltac unfold_calls :=
  unfold invoke, call, wrapper, async_wrapper, async_wrapper_body,
    get_validated_func, validate_call, validated_run, await,
    mbind, Outcome_bind in *.

(** When the engine has no schema for the function's signature, the wrapped
    function raises a [RuntypeError] with the single generic entry and the
    engine's exception as [original_exception] and cause, whatever the
    arguments and without running the body; the message is the header and
    the one line for that entry. *)
Theorem schema_failure_is_translated (cl : Closure) (func : Func)
    (args : list PyVal) (kwargs : Dict) (m : string) :
  truthy (getattr func _RUNTYPE_EXCLUSION (VBool false)) = false ->
  generate_schema E (cl_config cl) (fn_sig func) = Some m ->
  invoke repr E (_runtype cl func) args kwargs
  = Raise (RuntypeError [schema_failure]
             (Some (PydanticSchemaGenerationError m))
             ("Runtime type validation failed:" +:+ newline
              +:+ "  Failed to generate Pydantic schema. Value: " +:+ repr VNone)
             (Some (PydanticSchemaGenerationError m))).
Proof.
  intros Hflag Hschema. unfold _runtype. rewrite Hflag.
  destruct (fn_is_coroutine func); unfold_calls; simpl; rewrite Hschema; reflexivity.
Qed.

(** When the engine rejects the arguments, the wrapped function raises a
    [RuntypeError] carrying the engine's entries unchanged and the engine's
    exception as [original_exception] and cause; the outcome does not depend
    on the function's body. *)
Theorem rejected_arguments_are_translated (cl : Closure) (func : Func)
    (args : list PyVal) (kwargs : Dict) (errs : list ErrorDetails) (text : string) :
  truthy (getattr func _RUNTYPE_EXCLUSION (VBool false)) = false ->
  generate_schema E (cl_config cl) (fn_sig func) = None ->
  validate_arguments E (cl_config cl) (fn_sig func) args kwargs = inl (errs, text) ->
  invoke repr E (_runtype cl func) args kwargs
  = Raise (RuntypeError errs (Some (ValidationError errs text))
             (_format_errors repr errs) (Some (ValidationError errs text))).
Proof.
  intros Hflag Hschema Hargs. unfold _runtype. rewrite Hflag.
  destruct (fn_is_coroutine func) eqn:Hco; unfold_calls; simpl;
    rewrite Hschema; simpl; rewrite ?Hco; simpl; rewrite Hargs; reflexivity.
Qed.

(** The wrappers cannot tell where an engine failure comes from: when the
    function's own body raises a [ValidationError] or a
    [PydanticSchemaGenerationError], the wrapped function raises a
    [RuntypeError] around it just as for a failure at the boundary. For a
    coroutine function the body is reached once the engine, if asked, has let
    the un-awaited coroutine object through. *)
Theorem engine_failure_from_body_is_translated (cl : Closure) (func : Func)
    (args args' : list PyVal) (kwargs kwargs' : Dict) (e : Exn) :
  truthy (getattr func _RUNTYPE_EXCLUSION (VBool false)) = false ->
  generate_schema E (cl_config cl) (fn_sig func) = None ->
  validate_arguments E (cl_config cl) (fn_sig func) args kwargs = inr (args', kwargs') ->
  (fn_is_coroutine func = true ->
   config_validate_return (cl_config cl) = true ->
   exists c,
     validate_return_value E (cl_config cl) (fn_sig func) coroutine_object = inr c) ->
  fn_body func args' kwargs' = Raise e ->
  is_engine_failure e = true ->
  exists errors,
    invoke repr E (_runtype cl func) args kwargs
    = Raise (RuntypeError errors (Some e) (_format_errors repr errors) (Some e))
    /\ match e with
       | ValidationError errs _ => errors = errs
       | _ => errors = [schema_failure]
       end.
Proof.
  intros Hflag Hschema Hargs Hcoro Hbody He. unfold _runtype. rewrite Hflag.
  destruct (fn_is_coroutine func) eqn:Hco; unfold_calls; simpl;
    rewrite Hschema; simpl; rewrite ?Hco; simpl; rewrite Hargs; simpl.
  - destruct (coroutine_check_passes E (cl_config cl) (fn_sig func) (Hcoro eq_refl))
      as [c ->].
    rewrite Hbody. destruct e; try discriminate He; simpl;
      eexists; split; reflexivity.
  - rewrite Hbody. destruct e; try discriminate He; simpl;
      eexists; split; reflexivity.
Qed.

(** A wrapped coroutine function whose closure holds [validate_return] in
    its dictionary, with an engine that rejects an un-awaited coroutine
    object against the return annotation: every call whose arguments the
    engine accepts raises, when awaited, a [RuntypeError] with the engine's
    entries, and the outcome does not depend on the function's body. *)
Theorem rejected_coroutine_object_is_translated (cl : Closure) (func : Func)
    (args args' : list PyVal) (kwargs kwargs' : Dict)
    (errs : list ErrorDetails) (text : string) :
  truthy (getattr func _RUNTYPE_EXCLUSION (VBool false)) = false ->
  fn_is_coroutine func = true ->
  generate_schema E (cl_config cl) (fn_sig func) = None ->
  validate_arguments E (cl_config cl) (fn_sig func) args kwargs = inr (args', kwargs') ->
  config_validate_return (cl_config cl) = true ->
  validate_return_value E (cl_config cl) (fn_sig func) coroutine_object
  = inl (errs, text) ->
  (exists run, call repr E (_runtype cl func) args kwargs = Return (OCoro run))
  /\ call_await repr E (_runtype cl func) args kwargs
     = Raise (RuntypeError errs (Some (ValidationError errs text))
                (_format_errors repr errs) (Some (ValidationError errs text))).
Proof.
  intros Hflag Hco Hschema Hargs Hcfg Hrej. unfold _runtype. rewrite Hflag, Hco.
  split; [eexists; reflexivity|].
  unfold call_await. unfold_calls. simpl. rewrite Hschema. simpl. rewrite Hco. simpl.
  rewrite Hargs, Hcfg. unfold check_return. rewrite Hrej. reflexivity.
Qed.

(** With [validate_return] falsy in the closure's dictionary, a coroutine
    function and a plain function with the same signature and body behave
    alike once wrapped: calling the wrapped coroutine function only creates a
    coroutine, and awaiting it gives exactly the outcome of calling the
    wrapped plain function. *)
Theorem async_matches_sync_without_config_validate_return (cl : Closure)
    (fs fa : Func) (args : list PyVal) (kwargs : Dict) :
  fn_is_coroutine fs = false ->
  fn_is_coroutine fa = true ->
  fn_sig fa = fn_sig fs ->
  fn_body fa = fn_body fs ->
  truthy (getattr fs _RUNTYPE_EXCLUSION (VBool false)) = false ->
  truthy (getattr fa _RUNTYPE_EXCLUSION (VBool false)) = false ->
  config_validate_return (cl_config cl) = false ->
  (exists run, call repr E (_runtype cl fa) args kwargs = Return (OCoro run))
  /\ OVal <$> call_await repr E (_runtype cl fa) args kwargs
     = call repr E (_runtype cl fs) args kwargs.
Proof.
  intros Hs Ha Hsig Hbody Hfs Hfa Hcfg.
  unfold _runtype. rewrite Hfs, Hfa, Hs, Ha.
  split; [eexists; reflexivity|].
  unfold call_await, fmap, Outcome_fmap. unfold_calls. simpl.
  rewrite Hsig, Hbody, Hs, Ha.
  destruct (generate_schema E (cl_config cl) (fn_sig fs)); simpl; [reflexivity|].
  destruct (validate_arguments E (cl_config cl) (fn_sig fs) args kwargs)
    as [[errs text]|[args' kwargs']]; simpl; [reflexivity|].
  rewrite Hcfg. simpl.
  destruct (fn_body fs args' kwargs') as [v|e]; simpl.
  - destruct (truthy (cl_validate_return cl)); simpl; [|reflexivity].
    unfold check_return.
    destruct (validate_return_value E (cl_config cl) (fn_sig fs) v)
      as [[errs text]|v']; reflexivity.
  - destruct e; reflexivity.
Qed.

End WrappersMore.

Lemma schema_failure_is_translated_witness :
  invoke Samples.repr Samples.schemaless_engine
         (_runtype Samples.default_closure Samples.g) [VInt 1] []
  = Raise (RuntypeError [schema_failure]
             (Some (PydanticSchemaGenerationError "Unable to generate pydantic-core schema"))
             ("Runtime type validation failed:" +:+ newline
              +:+ "  Failed to generate Pydantic schema. Value: None")
             (Some (PydanticSchemaGenerationError
                      "Unable to generate pydantic-core schema"))).
Proof.
  apply (schema_failure_is_translated Samples.repr Samples.schemaless_engine
           Samples.default_closure Samples.g [VInt 1] []
           "Unable to generate pydantic-core schema");
    reflexivity.
Defined.

Lemma rejected_arguments_are_translated_witness :
  invoke Samples.repr Samples.strict_engine
         (_runtype Samples.default_closure Samples.g) [] [("x", VNone)]
  = Raise (RuntypeError
             [mk_error (Some [LocStr "x"]) (Some "Input should be a valid integer")
                       (Some VNone)]
             (Some (ValidationError
                      [mk_error (Some [LocStr "x"])
                                (Some "Input should be a valid integer") (Some VNone)]
                      "1 validation error(s)"))
             (_format_errors Samples.repr
                [mk_error (Some [LocStr "x"]) (Some "Input should be a valid integer")
                          (Some VNone)])
             (Some (ValidationError
                      [mk_error (Some [LocStr "x"])
                                (Some "Input should be a valid integer") (Some VNone)]
                      "1 validation error(s)"))).
Proof.
  apply (rejected_arguments_are_translated Samples.repr Samples.strict_engine
           Samples.default_closure Samples.g [] [("x", VNone)]);
    vm_compute; reflexivity.
Defined.

Lemma engine_failure_from_body_is_translated_witness :
  exists errors,
    invoke Samples.repr Samples.strict_engine
           (_runtype Samples.default_closure Samples.load) [VInt 8080] []
    = Raise (RuntypeError errors
               (Some (ValidationError
                        [mk_error (Some [LocStr "port"])
                                  (Some "Input should be a valid integer")
                                  (Some (VStr "http"))]
                        "1 validation error for Settings"))
               (_format_errors Samples.repr errors)
               (Some (ValidationError
                        [mk_error (Some [LocStr "port"])
                                  (Some "Input should be a valid integer")
                                  (Some (VStr "http"))]
                        "1 validation error for Settings")))
    /\ errors = [mk_error (Some [LocStr "port"]) (Some "Input should be a valid integer")
                          (Some (VStr "http"))].
Proof.
  apply (engine_failure_from_body_is_translated Samples.repr Samples.strict_engine
           Samples.default_closure Samples.load [VInt 8080] [VInt 8080] [] []
           (ValidationError
              [mk_error (Some [LocStr "port"]) (Some "Input should be a valid integer")
                        (Some (VStr "http"))]
              "1 validation error for Settings"));
    try (vm_compute; reflexivity).
  vm_compute. discriminate.
Defined.

Lemma rejected_coroutine_object_is_translated_witness :
  call_await Samples.repr Samples.strict_engine
             (_runtype Samples.default_closure Samples.ainv) [VInt 0] []
  = Raise (RuntypeError
             [mk_error (Some [LocStr "return"]) (Some "Input should be a valid integer")
                       (Some coroutine_object)]
             (Some (ValidationError
                      [mk_error (Some [LocStr "return"])
                                (Some "Input should be a valid integer")
                                (Some coroutine_object)]
                      "1 validation error(s)"))
             (_format_errors Samples.repr
                [mk_error (Some [LocStr "return"]) (Some "Input should be a valid integer")
                          (Some coroutine_object)])
             (Some (ValidationError
                      [mk_error (Some [LocStr "return"])
                                (Some "Input should be a valid integer")
                                (Some coroutine_object)]
                      "1 validation error(s)"))).
Proof.
  refine (proj2 (rejected_coroutine_object_is_translated Samples.repr
                   Samples.strict_engine Samples.default_closure Samples.ainv
                   [VInt 0] [VInt 0] [] [] _ _ _ _ _ _ _ _));
    vm_compute; reflexivity.
Defined.

Lemma async_matches_sync_without_config_validate_return_witness :
  OVal <$> call_await Samples.repr Samples.strict_engine
             (_runtype Samples.no_return_closure Samples.g) [VInt 1] []
  = call Samples.repr Samples.strict_engine
         (_runtype Samples.no_return_closure Samples.f) [VInt 1] [].
Proof.
  refine (proj2 (async_matches_sync_without_config_validate_return
                   Samples.repr Samples.strict_engine Samples.no_return_closure
                   Samples.f Samples.g [VInt 1] [] _ _ _ _ _ _ _));
    vm_compute; reflexivity.
Defined.

(** ** Disabling, and enabling again *)

(** On an enabled shell [disable_runtype] returns and leaves exactly this
    world: its guarded deletions amount to plain deletions. *)
Lemma disable_runtype_enabled_result (w : World) (ip : InteractiveShell) :
  get_ipython w = Some ip ->
  _is_runtype_enabled ip = true ->
  disable_runtype w
  = (Return tt,
     print "runtype disabled."
       (with_shell w
          (mk_shell
             (delete _RUNTYPE_WRAPPER (user_ns ip))
             (List.filter (fun t => negb (is_RuntypeASTDecorator t)) <$> ast_transformers ip)
             (delete _RUNTYPE_CONFIG (delete _RUNTYPE_ENABLED (attrs ip)))
             (push_fault ip) (setattr_fault ip)))).
Proof.
  intros Hip Hen. unfold disable_runtype, _get_ipython_context.
  rewrite Hip, Hen. cbn [negb]. cbv zeta. do 3 f_equal.
  destruct ip as [ns ts at_ pf sf].
  unfold _is_runtype_enabled, shell_hasattr in Hen. cbn [attrs] in Hen.
  assert (Hstep : forall l,
    (let ip1 := mk_shell ns l at_ pf sf in
     let ip2 := if shell_hasattr ip1 _RUNTYPE_ENABLED
                then shell_delattr ip1 _RUNTYPE_ENABLED else ip1 in
     let ip3 := if shell_hasattr ip2 _RUNTYPE_CONFIG
                then shell_delattr ip2 _RUNTYPE_CONFIG else ip2 in
     if bool_decide (is_Some (user_ns ip3 !! _RUNTYPE_WRAPPER))
     then with_user_ns ip3 (delete _RUNTYPE_WRAPPER (user_ns ip3)) else ip3)
    = mk_shell (delete _RUNTYPE_WRAPPER ns) l
        (delete _RUNTYPE_CONFIG (delete _RUNTYPE_ENABLED at_)) pf sf).
  { intros l. cbv zeta.
    assert (Hflag : shell_hasattr (mk_shell ns l at_ pf sf) _RUNTYPE_ENABLED = true)
      by exact Hen.
    rewrite Hflag.
    unfold shell_hasattr, shell_delattr, with_attrs, with_user_ns.
    cbn [attrs user_ns ast_transformers push_fault setattr_fault].
    destruct (bool_decide (is_Some (delete _RUNTYPE_ENABLED at_ !! _RUNTYPE_CONFIG)))
      eqn:Hcfg;
      cbn [attrs user_ns ast_transformers push_fault setattr_fault];
      destruct (bool_decide (is_Some (ns !! _RUNTYPE_WRAPPER))) eqn:Hns;
      cbn [attrs user_ns ast_transformers push_fault setattr_fault];
      repeat match goal with
             | H : bool_decide _ = false |- _ =>
                 apply bool_decide_eq_false in H; apply eq_None_not_Some in H
             end;
      rewrite ?(delete_id ns) by assumption;
      rewrite ?(delete_id (delete _RUNTYPE_ENABLED at_)) by assumption;
      reflexivity. }
  destruct ts as [ts|]; cbn [ast_transformers fmap option_fmap option_map];
    unfold with_ast_transformers;
    cbn [attrs user_ns ast_transformers push_fault setattr_fault];
    apply Hstep.
Qed.

Lemma get_runtype_config_stored (w : World) (ip : InteractiveShell) (v c : PyVal) :
  get_ipython w = Some ip ->
  attrs ip !! _RUNTYPE_ENABLED = Some v ->
  attrs ip !! _RUNTYPE_CONFIG = Some c ->
  get_runtype_config w = Return c.
Proof.
  intros Hip Hv Hc. unfold get_runtype_config, _get_ipython_context. rewrite Hip.
  assert (Hon : _is_runtype_enabled ip = true).
  { apply shell_hasattr_true. rewrite Hv. eauto. }
  rewrite Hon. cbn [negb]. rewrite Hc. reflexivity.
Qed.

Lemma filter_keeps_host_transformers (ts : list Transformer) :
  Forall (fun t => is_RuntypeASTDecorator t = false) ts ->
  List.filter (fun t => negb (is_RuntypeASTDecorator t)) (ts ++ [RuntypeASTDecorator]) = ts.
Proof.
  induction 1 as [|t ts Ht _ IH]; simpl; [reflexivity|].
  rewrite Ht. simpl. rewrite IH. reflexivity.
Qed.

Section SessionMore.

Context (repr : PyVal -> string).

(** On a shell that is not enabled, [disable_runtype] does not raise and
    leaves the shell as it is, whatever it holds; it only prints its notice. *)
Theorem disable_when_not_enabled_is_noop (w : World) (ip : InteractiveShell) :
  get_ipython w = Some ip ->
  _is_runtype_enabled ip = false ->
  disable_runtype w = (Return tt, print "runtype is not enabled." w)
  /\ get_ipython (disable_runtype w).2 = Some ip
  /\ stdout (disable_runtype w).2 = (stdout w ++ ["runtype is not enabled."])%list.
Proof.
  intros Hip Hoff.
  assert (Hrun : disable_runtype w = (Return tt, print "runtype is not enabled." w)).
  { unfold disable_runtype, _get_ipython_context. rewrite Hip, Hoff. reflexivity. }
  rewrite Hrun. cbn [snd print get_ipython stdout]. auto.
Qed.

(** Outside IPython, [enable_runtype] (with boolean flags), [disable_runtype]
    and [get_runtype_config] raise the same [RuntimeError] and change
    nothing, while [is_runtype_enabled] answers [False] instead of raising. *)
Theorem no_host_session_is_reported (s vr vd a : bool) (w : World) :
  get_ipython w = None ->
  let missing := RuntimeError "This should be run from an IPython environment." None in
  enable_runtype repr (VBool s) (VBool vr) (VBool vd) (VBool a) w = (Raise missing, w)
  /\ disable_runtype w = (Raise missing, w)
  /\ get_runtype_config w = Raise missing
  /\ is_runtype_enabled w = false.
Proof.
  intros Hnone missing.
  unfold enable_runtype, disable_runtype, get_runtype_config, is_runtype_enabled,
    _get_ipython_context.
  rewrite Hnone. repeat split.
Qed.

(** On an enabled shell [disable_runtype] returns, and afterwards: the
    session is not enabled, the flag and the configuration are gone and every
    other attribute is as before, [_runtype] is gone from the namespace
    (whatever it was bound to) and every other name is as before, and the
    transformer list is the old one without the [RuntypeASTDecorator]
    instances. A shell without a transformer list is no obstacle. *)
Theorem disable_runtype_cleans_up (w : World) (ip : InteractiveShell) :
  get_ipython w = Some ip ->
  _is_runtype_enabled ip = true ->
  exists ip',
    disable_runtype w = (Return tt, print "runtype disabled." (with_shell w ip'))
    /\ is_runtype_enabled (disable_runtype w).2 = false
    /\ attrs ip' !! _RUNTYPE_ENABLED = None
    /\ attrs ip' !! _RUNTYPE_CONFIG = None
    /\ (forall k, k <> _RUNTYPE_ENABLED -> k <> _RUNTYPE_CONFIG ->
                  attrs ip' !! k = attrs ip !! k)
    /\ user_ns ip' !! _RUNTYPE_WRAPPER = None
    /\ (forall k, k <> _RUNTYPE_WRAPPER -> user_ns ip' !! k = user_ns ip !! k)
    /\ ast_transformers ip'
       = (List.filter (fun t => negb (is_RuntypeASTDecorator t)) <$> ast_transformers ip)
    /\ (forall ts', ast_transformers ip' = Some ts' ->
                    Forall (fun t => is_RuntypeASTDecorator t = false) ts').
Proof.
  intros Hip Hen. eexists.
  split; [apply (disable_runtype_enabled_result w ip Hip Hen)|].
  rewrite (disable_runtype_enabled_result w ip Hip Hen).
  cbn [snd attrs user_ns ast_transformers].
  assert (Hgone : delete _RUNTYPE_CONFIG (delete _RUNTYPE_ENABLED (attrs ip))
                    !! _RUNTYPE_ENABLED = None).
  { rewrite lookup_delete_ne by apply config_is_not_enabled. apply lookup_delete_eq. }
  split.
  { unfold is_runtype_enabled, _get_ipython_context.
    cbn [print with_shell get_ipython]. apply shell_hasattr_false. exact Hgone. }
  split; [exact Hgone|].
  split; [apply lookup_delete_eq|].
  split.
  { intros k Hk1 Hk2. rewrite !lookup_delete_ne by congruence. reflexivity. }
  split; [apply lookup_delete_eq|].
  split.
  { intros k Hk. rewrite lookup_delete_ne by congruence. reflexivity. }
  split; [reflexivity|].
  intros ts' Hts'. destruct (ast_transformers ip) as [ts|]; [|discriminate].
  cbn in Hts'. injection Hts' as <-.
  apply Forall_forall. intros t Ht. apply list_elem_of_In in Ht.
  apply List.filter_In in Ht as [_ Ht]. destruct (is_RuntypeASTDecorator t);
    [discriminate | reflexivity].
Qed.

(** Enabling and then disabling gives back the shell one started from, when
    that shell lets [enable_runtype] through, holds neither of the two
    attributes nor a binding of [_runtype], and has no [RuntypeASTDecorator]
    in its list; two lines are printed. *)
Theorem enable_then_disable_restores_shell (s vr vd a : bool) (w : World)
    (ip : InteractiveShell) (ts : list Transformer) :
  get_ipython w = Some ip ->
  attrs ip !! _RUNTYPE_ENABLED = None ->
  attrs ip !! _RUNTYPE_CONFIG = None ->
  user_ns ip !! _RUNTYPE_WRAPPER = None ->
  push_fault ip = None ->
  ast_transformers ip = Some ts ->
  Forall (fun t => is_RuntypeASTDecorator t = false) ts ->
  setattr_fault ip _RUNTYPE_ENABLED = None ->
  setattr_fault ip _RUNTYPE_CONFIG = None ->
  let w1 := (enable_runtype repr (VBool s) (VBool vr) (VBool vd) (VBool a) w).2 in
  exists w2 line,
    disable_runtype w1 = (Return tt, w2)
    /\ get_ipython w2 = Some ip
    /\ stdout w2 = (stdout w ++ [line; "runtype disabled."])%list.
Proof.
  intros Hip Hflag Hcfg Hns Hpush Hts Hhost Hset1 Hset2 w1.
  assert (Hoff : _is_runtype_enabled ip = false) by (apply shell_hasattr_false; exact Hflag).
  pose proof (enable_runtype_succeeds repr s vr vd a w ip ts Hip Hoff Hpush Hts Hset1 Hset2)
    as Hfirst.
  cbv zeta in Hfirst. unfold w1. rewrite Hfirst. cbn [snd].
  match goal with
  | |- context [print _ (with_shell w ?shell)] => set (ip1 := shell)
  end.
  assert (Hen1 : _is_runtype_enabled ip1 = true).
  { apply shell_hasattr_true. unfold ip1. cbn [attrs].
    rewrite lookup_insert_ne by apply config_is_not_enabled.
    rewrite lookup_insert_eq. eauto. }
  match goal with
  | |- context [disable_runtype ?w0] =>
      rewrite (disable_runtype_enabled_result w0 ip1 eq_refl Hen1)
  end.
  eexists. eexists. split; [reflexivity|].
  unfold ip1. cbn [print with_shell get_ipython stdout attrs user_ns ast_transformers
    push_fault setattr_fault fmap option_fmap option_map].
  split.
  - rewrite delete_insert_id by exact Hns.
    rewrite filter_keeps_host_transformers by exact Hhost.
    rewrite (delete_insert_ne _ _RUNTYPE_ENABLED _RUNTYPE_CONFIG)
      by (intros H; symmetry in H; exact (config_is_not_enabled H)).
    rewrite (delete_insert_id _ _RUNTYPE_ENABLED) by exact Hflag.
    rewrite delete_insert_id by exact Hcfg.
    destruct ip as [ns l at_ pf sf]. cbn in *. subst. reflexivity.
  - rewrite <- app_assoc. reflexivity.
Qed.

(** After enable, disable and a second enable, [get_runtype_config] returns
    the flags of the second enable: nothing of the first configuration
    survives the disable. *)
Theorem reenable_takes_new_config (s vr vd a s' vr' vd' a' : bool) (w : World)
    (ip : InteractiveShell) :
  get_ipython w = Some ip ->
  _is_runtype_enabled ip = false ->
  cooperative ip ->
  let w1 := (enable_runtype repr (VBool s) (VBool vr) (VBool vd) (VBool a) w).2 in
  let w2 := (disable_runtype w1).2 in
  exists w3,
    enable_runtype repr (VBool s') (VBool vr') (VBool vd') (VBool a') w2 = (Return tt, w3)
    /\ get_runtype_config w3
       = Return (VDict [("strict", VBool s'); ("validate_return", VBool vr');
                        ("validate_default", VBool vd');
                        ("arbitrary_types_allowed", VBool a')]).
Proof.
  intros Hip Hoff (Hpush & [ts Hts] & Hset1 & Hset2) w1 w2.
  pose proof (enable_runtype_succeeds repr s vr vd a w ip ts Hip Hoff Hpush Hts Hset1 Hset2)
    as Hfirst.
  cbv zeta in Hfirst. unfold w2, w1. rewrite Hfirst. cbn [snd].
  match goal with
  | |- context [print _ (with_shell w ?shell)] => set (ip1 := shell)
  end.
  assert (Hen1 : _is_runtype_enabled ip1 = true).
  { apply shell_hasattr_true. unfold ip1. cbn [attrs].
    rewrite lookup_insert_ne by apply config_is_not_enabled.
    rewrite lookup_insert_eq. eauto. }
  match goal with
  | |- context [disable_runtype ?w0] =>
      rewrite (disable_runtype_enabled_result w0 ip1 eq_refl Hen1)
  end.
  cbn [snd].
  match goal with
  | |- context [enable_runtype _ _ _ _ _ (print ?l (with_shell ?w0 ?shell))] =>
      set (ip2 := shell); set (w2' := print l (with_shell w0 shell))
  end.
  assert (Hoff2 : _is_runtype_enabled ip2 = false).
  { apply shell_hasattr_false. unfold ip2. cbn [attrs].
    rewrite lookup_delete_ne by apply config_is_not_enabled. apply lookup_delete_eq. }
  pose proof (enable_runtype_succeeds repr s' vr' vd' a' w2' ip2
                (List.filter (fun t => negb (is_RuntypeASTDecorator t))
                             (ts ++ [RuntypeASTDecorator]))
                eq_refl Hoff2 Hpush eq_refl Hset1 Hset2) as Hsecond.
  cbv zeta in Hsecond. eexists. split; [exact Hsecond|].
  eapply get_runtype_config_stored.
  - reflexivity.
  - cbn [attrs]. rewrite lookup_insert_ne by apply config_is_not_enabled.
    apply lookup_insert_eq.
  - cbn [attrs]. apply lookup_insert_eq.
Qed.

(** [is_runtype_enabled] and [get_runtype_config] agree: the first answers
    [True] exactly when the second returns. Only the presence of the
    attribute [_runtype_enabled] counts, not its value. *)
Theorem is_enabled_iff_get_config_returns (w : World) :
  (is_runtype_enabled w = true <-> exists c, get_runtype_config w = Return c)
  /\ (forall ip v, get_ipython w = Some ip ->
                   attrs ip !! _RUNTYPE_ENABLED = Some v ->
                   is_runtype_enabled w = true).
Proof.
  unfold is_runtype_enabled, get_runtype_config, _get_ipython_context.
  destruct (get_ipython w) as [ip|].
  - split.
    + destruct (_is_runtype_enabled ip); cbn [negb]; split;
        try (intros [c Hc]; discriminate); try discriminate; eauto.
    + intros ip0 v [= <-] Hv. apply shell_hasattr_true. rewrite Hv. eauto.
  - split; [split; [discriminate | intros [c Hc]; discriminate]|].
    intros ip v Hip. discriminate.
Qed.

(** On a successful [enable_runtype] the name [_runtype] is bound (over any
    earlier binding) to the closure over the four flags, every other name is
    as before, one [RuntypeASTDecorator] is appended after the transformers
    the shell had, the stored configuration is the closure's dictionary, and
    the confirmation line is printed. *)
Theorem enable_installs_decorator_and_pass (s vr vd a : bool) (w : World)
    (ip : InteractiveShell) (ts : list Transformer) :
  get_ipython w = Some ip ->
  _is_runtype_enabled ip = false ->
  push_fault ip = None ->
  ast_transformers ip = Some ts ->
  setattr_fault ip _RUNTYPE_ENABLED = None ->
  setattr_fault ip _RUNTYPE_CONFIG = None ->
  let config : Dict :=
    [("strict", VBool s); ("validate_return", VBool vr);
     ("validate_default", VBool vd); ("arbitrary_types_allowed", VBool a)] in
  let w' := (enable_runtype repr (VBool s) (VBool vr) (VBool vd) (VBool a) w).2 in
  exists ip',
    get_ipython w' = Some ip'
    /\ user_ns ip' !! _RUNTYPE_WRAPPER = Some (NsRuntype (mk_closure config (VBool vr)))
    /\ (forall k, k <> _RUNTYPE_WRAPPER -> user_ns ip' !! k = user_ns ip !! k)
    /\ ast_transformers ip' = Some (ts ++ [RuntypeASTDecorator])%list
    /\ attrs ip' !! _RUNTYPE_CONFIG = Some (VDict config)
    /\ (forall k, k <> _RUNTYPE_ENABLED -> k <> _RUNTYPE_CONFIG ->
                  attrs ip' !! k = attrs ip !! k)
    /\ stdout w'
       = (stdout w ++ ["runtype enabled with config=" +:+ dict_str repr config])%list.
Proof.
  intros Hip Hoff Hpush Hts Hset1 Hset2 config w'.
  pose proof (enable_runtype_succeeds repr s vr vd a w ip ts Hip Hoff Hpush Hts Hset1 Hset2)
    as Hfirst.
  cbv zeta in Hfirst. unfold w'. rewrite Hfirst.
  cbn [snd print with_shell get_ipython stdout].
  eexists. split; [reflexivity|]. cbn [user_ns ast_transformers attrs].
  split; [apply lookup_insert_eq|].
  split; [intros k Hk; apply lookup_insert_ne; congruence|].
  split; [reflexivity|].
  split; [apply lookup_insert_eq|].
  split; [|reflexivity].
  intros k Hk1 Hk2. rewrite !lookup_insert_ne by congruence. reflexivity.
Qed.

(** Whenever [enable_runtype] fails after its push went through, through an
    exception of class [Exception] in any of the three registration
    statements, it raises the registration [RuntimeError] with that
    exception as cause, prints nothing, and [_runtype] is not bound in the
    namespace afterwards, every other name being as before. *)
Theorem enable_failure_removes_decorator (s vr vd a : bool) (w w' : World)
    (ip : InteractiveShell) (e : Exn) :
  get_ipython w = Some ip ->
  _is_runtype_enabled ip = false ->
  push_fault ip = None ->
  (forall attr x, setattr_fault ip attr = Some x -> is_Exception x = true) ->
  enable_runtype repr (VBool s) (VBool vr) (VBool vd) (VBool a) w = (Raise e, w') ->
  (exists cause,
     e = RuntimeError ("Failed to register AST transformer: " +:+ exn_str cause)
                      (Some cause))
  /\ stdout w' = stdout w
  /\ exists ip',
       get_ipython w' = Some ip'
       /\ user_ns ip' = delete _RUNTYPE_WRAPPER (user_ns ip).
Proof.
  intros Hip Hoff Hpush Hexc.
  unfold enable_runtype, _get_ipython_context. rewrite Hip.
  cbn [forallb is_bool andb negb]. rewrite Hoff.
  unfold push. rewrite Hpush.
  unfold register_transformer, append_transformer, shell_setattr,
    with_user_ns, with_ast_transformers, with_attrs.
  cbn [setattr_fault attrs user_ns ast_transformers push_fault].
  assert (Hclean : forall l at_ pf sf (obj : NsObj),
            user_ns (cleanup_namespace
                       (mk_shell (<[_RUNTYPE_WRAPPER := obj]> (user_ns ip)) l at_ pf sf))
            = delete _RUNTYPE_WRAPPER (user_ns ip)).
  { intros. unfold cleanup_namespace, with_user_ns. cbn [user_ns].
    rewrite lookup_insert_eq, bool_decide_eq_true_2 by eauto.
    cbn [user_ns]. apply delete_insert_eq. }
  destruct (ast_transformers ip) as [ts|].
  - cbn [setattr_fault attrs user_ns ast_transformers push_fault].
    destruct (setattr_fault ip _RUNTYPE_ENABLED) as [x|] eqn:H1.
    + rewrite (Hexc _ _ H1). intros [= <- <-].
      split; [eexists; reflexivity|]. split; [reflexivity|].
      eexists. split; [reflexivity|]. apply Hclean.
    + cbn [setattr_fault attrs user_ns ast_transformers push_fault].
      destruct (setattr_fault ip _RUNTYPE_CONFIG) as [x|] eqn:H2.
      * rewrite (Hexc _ _ H2). intros [= <- <-].
        split; [eexists; reflexivity|]. split; [reflexivity|].
        eexists. split; [reflexivity|]. apply Hclean.
      * intros [=].
  - cbn [is_Exception]. intros [= <- <-].
    split; [eexists (OtherException _ _); reflexivity|]. split; [reflexivity|].
    eexists. split; [reflexivity|]. apply Hclean.
Qed.

End SessionMore.

(** ** The message of a [RuntypeError] *)

Lemma concat_head_nonempty (sep s : string) (rest : list string) :
  s <> "" -> String.concat sep (s :: rest) <> "".
Proof.
  intros Hs. destruct s as [|c s]; [congruence|].
  destruct rest; simpl; discriminate.
Qed.

Lemma pretty_N_go_nonempty (x : N) (s : string) :
  s <> "" -> pretty_N_go x s <> "".
Proof.
  revert s. induction (N.lt_wf_0 x) as [x _ IH]; intros s Hs.
  destruct (decide (x = 0)%N) as [->|Hx].
  - rewrite pretty_N_go_0. exact Hs.
  - rewrite pretty_N_go_step by lia. apply IH; [|discriminate].
    apply N.div_lt; lia.
Qed.

Lemma pretty_Z_nonempty (i : Z) : pretty i <> "".
Proof.
  destruct i as [|p|p]; unfold pretty, pretty_Z; [discriminate| |discriminate].
  unfold pretty, pretty_positive, pretty, pretty_N.
  destruct (decide (N.pos p = 0)%N) as [H|_]; [discriminate H|].
  rewrite pretty_N_go_step by lia. apply pretty_N_go_nonempty. discriminate.
Qed.

Section Message.

Context (repr : PyVal -> string).

(** How [_format_errors] lists an entry. Without a location, with an empty
    one, or with the single empty name, the line is the message and the
    value; with a location that starts with a position or a non-empty name,
    the line names the path joined by [" -> "]. A missing message reads
    ["Invalid value"], a missing input is printed as [repr(None)]. An empty
    list gives the header alone. *)
Theorem format_error_uses_location (err : ErrorDetails) :
  let msg := default "Invalid value" (err_msg err) in
  let value := repr (default VNone (err_input err)) in
  (err_loc err = None \/ err_loc err = Some [] \/ err_loc err = Some [LocStr ""] ->
   format_error repr err = "  " +:+ msg +:+ ". Value: " +:+ value)
  /\ (forall x rest,
        err_loc err = Some (x :: rest) -> x <> LocStr "" ->
        format_error repr err
        = "  Parameter '" +:+ String.concat " -> " (map loc_str (x :: rest))
          +:+ "': " +:+ msg +:+ ". Value: " +:+ value)
  /\ _format_errors repr [] = "Runtime type validation failed:".
Proof.
  intros msg value. split; [|split; [|reflexivity]].
  - intros [H | [H | H]]; unfold format_error; rewrite H; reflexivity.
  - intros x rest Hloc Hx. unfold format_error. rewrite Hloc.
    cbn [default from_option id]. cbv zeta.
    assert (Hne : String.concat " -> " (map loc_str (x :: rest)) <> "").
    { change (map loc_str (x :: rest)) with (loc_str x :: map loc_str rest).
      apply concat_head_nonempty.
      destruct x as [s|i]; simpl; [congruence | apply pretty_Z_nonempty]. }
    apply String.eqb_neq in Hne. rewrite Hne. reflexivity.
Qed.

End Message.

Lemma format_error_uses_location_witness :
  format_error Samples.repr
    (mk_error (Some [LocInt 0]) (Some "Input should be a valid integer") (Some (VStr "a")))
  = "  Parameter '0': Input should be a valid integer. Value: 'a'"
  /\ format_error Samples.repr (mk_error (Some []) None None)
     = "  Invalid value. Value: None".
Proof.
  split.
  - refine (proj1 (proj2 (format_error_uses_location Samples.repr
                            (mk_error (Some [LocInt 0])
                                      (Some "Input should be a valid integer")
                                      (Some (VStr "a")))))
                  (LocInt 0) [] _ _);
      [reflexivity | discriminate].
  - refine (proj1 (format_error_uses_location Samples.repr (mk_error (Some []) None None)) _).
    right. left. reflexivity.
Defined.

(** ** The session properties on the sample sessions *)

Lemma disable_when_not_enabled_is_noop_witness :
  disable_runtype Samples.fresh_world
  = (Return tt, print "runtype is not enabled." Samples.fresh_world)
  /\ get_ipython (disable_runtype Samples.fresh_world).2 = Some Samples.fresh_shell
  /\ stdout (disable_runtype Samples.fresh_world).2
     = (stdout Samples.fresh_world ++ ["runtype is not enabled."])%list.
Proof.
  apply (disable_when_not_enabled_is_noop Samples.fresh_world Samples.fresh_shell);
    vm_compute; reflexivity.
Defined.

Lemma no_host_session_is_reported_witness :
  is_runtype_enabled Samples.no_shell_world = false
  /\ disable_runtype Samples.no_shell_world
     = (Raise (RuntimeError "This should be run from an IPython environment." None),
        Samples.no_shell_world).
Proof.
  destruct (no_host_session_is_reported Samples.repr true true true true
              Samples.no_shell_world eq_refl) as (_ & Hdisable & _ & Hquery).
  split; [exact Hquery | exact Hdisable].
Defined.

Lemma disable_runtype_cleans_up_witness :
  is_runtype_enabled (disable_runtype Samples.enabled_world).2 = false.
Proof.
  destruct (disable_runtype_cleans_up Samples.enabled_world Samples.enabled_shell)
    as (ip' & _ & Hoff & _); [vm_compute; reflexivity .. | exact Hoff].
Defined.

Lemma enable_then_disable_restores_shell_witness :
  exists w2 line,
    disable_runtype
      (enable_runtype Samples.repr (VBool true) (VBool false) (VBool true) (VBool false)
         Samples.fresh_world).2
    = (Return tt, w2)
    /\ get_ipython w2 = Some Samples.fresh_shell
    /\ stdout w2 = (stdout Samples.fresh_world ++ [line; "runtype disabled."])%list.
Proof.
  apply (enable_then_disable_restores_shell Samples.repr true false true false
           Samples.fresh_world Samples.fresh_shell [HostTransformer "autoawait"]);
    try (vm_compute; reflexivity).
  repeat constructor.
Defined.

Lemma reenable_takes_new_config_witness :
  exists w3,
    enable_runtype Samples.repr (VBool false) (VBool false) (VBool true) (VBool true)
      (disable_runtype
         (enable_runtype Samples.repr (VBool true) (VBool true) (VBool true) (VBool true)
            Samples.fresh_world).2).2
    = (Return tt, w3)
    /\ get_runtype_config w3
       = Return (VDict [("strict", VBool false); ("validate_return", VBool false);
                        ("validate_default", VBool true);
                        ("arbitrary_types_allowed", VBool true)]).
Proof.
  apply (reenable_takes_new_config Samples.repr true true true true false false true true
           Samples.fresh_world Samples.fresh_shell).
  - reflexivity.
  - vm_compute. reflexivity.
  - repeat split. simpl. eauto.
Defined.

Lemma is_enabled_iff_get_config_returns_witness :
  is_runtype_enabled Samples.config_refusing_world = false
  /\ is_runtype_enabled Samples.enabled_world = true.
Proof.
  split.
  - destruct (is_runtype_enabled Samples.config_refusing_world) eqn:Hon; [|reflexivity].
    apply (proj1 (is_enabled_iff_get_config_returns Samples.config_refusing_world)) in Hon
      as [c Hc].
    vm_compute in Hc. discriminate Hc.
  - apply (proj2 (is_enabled_iff_get_config_returns Samples.enabled_world)
             Samples.enabled_shell (VBool true));
      vm_compute; reflexivity.
Defined.

Lemma enable_installs_decorator_and_pass_witness :
  exists ip',
    get_ipython
      (enable_runtype Samples.repr (VBool true) (VBool true) (VBool true) (VBool true)
         Samples.fresh_world).2 = Some ip'
    /\ user_ns ip' !! _RUNTYPE_WRAPPER = Some (NsRuntype Samples.default_closure)
    /\ ast_transformers ip' = Some [HostTransformer "autoawait"; RuntypeASTDecorator].
Proof.
  destruct (enable_installs_decorator_and_pass Samples.repr true true true true
              Samples.fresh_world Samples.fresh_shell [HostTransformer "autoawait"])
    as (ip' & Hip' & Hns & _ & Hts & _); try (vm_compute; reflexivity).
  exists ip'. split; [exact Hip'|]. split; [exact Hns | exact Hts].
Defined.

Lemma enable_failure_removes_decorator_witness :
  exists ip',
    get_ipython
      (enable_runtype Samples.repr (VBool true) (VBool true) (VBool true) (VBool true)
         Samples.refusing_world).2 = Some ip'
    /\ user_ns ip' = delete _RUNTYPE_WRAPPER (user_ns Samples.refusing_shell).
Proof.
  destruct (enable_failure_removes_decorator Samples.repr true true true true
              Samples.refusing_world
              (enable_runtype Samples.repr (VBool true) (VBool true) (VBool true)
                 (VBool true) Samples.refusing_world).2
              Samples.refusing_shell
              (RuntimeError "Failed to register AST transformer: can't set attribute"
                 (Some (OtherException "AttributeError" "can't set attribute"))))
    as (_ & _ & Hns); try (vm_compute; reflexivity).
  - intros attr x. simpl.
    destruct (String.eqb attr _RUNTYPE_ENABLED); intros [= <-]; reflexivity.
  - exact Hns.
Defined.

Lemma enable_push_failure_changes_nothing_witness :
  enable_runtype Samples.repr (VBool true) (VBool true) (VBool true) (VBool true)
    (mk_world (Some Samples.closed_shell) [])
  = (Raise (RuntimeError
              ("Failed to inject runtype decorator: "
               +:+ exn_str (OtherException "ValueError" "namespace is closed"))
              (Some (OtherException "ValueError" "namespace is closed"))),
     mk_world (Some Samples.closed_shell) []).
Proof.
  apply (enable_push_failure_changes_nothing Samples.repr true true true true
           (mk_world (Some Samples.closed_shell) []) Samples.closed_shell);
    vm_compute; reflexivity.
Defined.

Lemma enable_append_failure_rolls_back_witness :
  exists e,
    enable_runtype Samples.repr (VBool true) (VBool true) (VBool true) (VBool true)
      (mk_world (Some Samples.bare_shell) [])
    = (Raise (RuntimeError ("Failed to register AST transformer: " +:+ exn_str e)
                           (Some e)),
       mk_world (Some Samples.bare_shell) []).
Proof.
  apply (enable_append_failure_rolls_back Samples.repr true true true true
           (mk_world (Some Samples.bare_shell) []) Samples.bare_shell);
    vm_compute; reflexivity.
Defined.

(** ** Two more compositions *)

(** A second [disable_runtype] right after a first finds nothing to do: it
    returns, prints its notice and leaves the shell of the first. *)
Theorem disable_twice_is_disable_once (w : World) (ip : InteractiveShell) :
  get_ipython w = Some ip ->
  let w1 := (disable_runtype w).2 in
  disable_runtype w1 = (Return tt, print "runtype is not enabled." w1)
  /\ get_ipython (disable_runtype w1).2 = get_ipython w1.
Proof.
  intros Hip w1.
  destruct (disable_runtype_clears_flag w ip Hip) as (ip1 & Hip1 & Hoff1).
  fold w1 in Hip1.
  assert (Hrun : disable_runtype w1 = (Return tt, print "runtype is not enabled." w1)).
  { unfold disable_runtype at 1, _get_ipython_context. rewrite Hip1, Hoff1. reflexivity. }
  rewrite Hrun. split; reflexivity.
Qed.

Lemma disable_twice_is_disable_once_witness :
  get_ipython (disable_runtype (disable_runtype Samples.enabled_world).2).2
  = get_ipython (disable_runtype Samples.enabled_world).2.
Proof.
  refine (proj2 (disable_twice_is_disable_once Samples.enabled_world
                   Samples.enabled_shell _)).
  vm_compute. reflexivity.
Defined.

(** When the engine has a schema, lets the arguments through (possibly
    changed) and the body returns, the wrapped function returns on either
    path, the body having run on the engine's arguments. The caller gets the
    engine's version of the result when a validation of the result applies,
    and the body's own result otherwise: for a plain function it applies when
    the dictionary or the keyword says [validate_return], for a coroutine
    function when the keyword says so (the dictionary's validation there
    concerns the un-awaited coroutine object, which the engine has to let
    through). The engine's version is taken to be stable under a second
    validation. *)
Theorem accepted_call_returns_validated_value (repr : PyVal -> string) (E : Engine)
    (cl : Closure) (func : Func) (args args' : list PyVal) (kwargs kwargs' : Dict)
    (v v' : PyVal) :
  truthy (getattr func _RUNTYPE_EXCLUSION (VBool false)) = false ->
  generate_schema E (cl_config cl) (fn_sig func) = None ->
  validate_arguments E (cl_config cl) (fn_sig func) args kwargs = inr (args', kwargs') ->
  (fn_is_coroutine func = true ->
   config_validate_return (cl_config cl) = true ->
   exists c,
     validate_return_value E (cl_config cl) (fn_sig func) coroutine_object = inr c) ->
  fn_body func args' kwargs' = Return v ->
  validate_return_value E (cl_config cl) (fn_sig func) v = inr v' ->
  validate_return_value E (cl_config cl) (fn_sig func) v' = inr v' ->
  invoke repr E (_runtype cl func) args kwargs
  = Return (if (negb (fn_is_coroutine func) && config_validate_return (cl_config cl))
               || truthy (cl_validate_return cl)
            then v' else v).
Proof.
  intros Hflag Hschema Hargs Hcoro Hbody Hret Hret'. unfold _runtype. rewrite Hflag.
  destruct (fn_is_coroutine func) eqn:Hco;
    unfold invoke, call, wrapper, async_wrapper, async_wrapper_body,
      get_validated_func, validate_call, validated_run, await, mbind, Outcome_bind;
    simpl; rewrite Hschema; simpl; rewrite ?Hco; simpl; rewrite Hargs; simpl.
  - destruct (coroutine_check_passes E (cl_config cl) (fn_sig func) (Hcoro eq_refl))
      as [c ->].
    rewrite Hbody. unfold check_return.
    destruct (truthy (cl_validate_return cl)); simpl; rewrite ?Hret; reflexivity.
  - rewrite Hbody. unfold check_return.
    destruct (config_validate_return (cl_config cl)); simpl; rewrite ?Hret; simpl;
      destruct (truthy (cl_validate_return cl)); simpl;
      rewrite ?Hret', ?Hret; reflexivity.
Qed.

Lemma accepted_call_returns_validated_value_witness :
  invoke Samples.repr Samples.strict_engine
         (_runtype Samples.default_closure Samples.f) [] [("x", VInt 41)]
  = Return (VInt 42)
  /\ invoke Samples.repr Samples.strict_engine
            (_runtype Samples.no_return_closure Samples.g) [] [("x", VInt 41)]
     = Return (VInt 42).
Proof.
  split.
  - apply (accepted_call_returns_validated_value Samples.repr Samples.strict_engine
             Samples.default_closure Samples.f [] [] [("x", VInt 41)] [("x", VInt 41)]
             (VInt 42) (VInt 42));
      try (vm_compute; reflexivity).
    vm_compute. discriminate.
  - apply (accepted_call_returns_validated_value Samples.repr Samples.strict_engine
             Samples.no_return_closure Samples.g [] [] [("x", VInt 41)] [("x", VInt 41)]
             (VInt 42) (VInt 42));
      try (vm_compute; reflexivity).
    vm_compute. discriminate.
Defined.
